(** * De-identification pipeline of [app.py]: shallow embedding and properties

    The development follows [deidentify_data] of [src/app.py]:

    - [PyStr]  : the [str] methods the function calls ([strip] and
                 [replace]) and the rendering of an [int] by an f-string;
                 [str.title] is a parameter, as the engines are;
    - [PyDict] : the insertion-ordered dictionary [total_pii_found];
    - [PyCsv]  : [io.StringIO] line iteration, [csv.reader] and [csv.writer]
                 with the default ("excel") dialect, after CPython's [_csv.c];
    - [Presidio] : the values exchanged with the analyzer and the
                 anonymizer;
    - section [Pipeline] : [deidentify_data] itself, over the two engines,
                 which are parameters of the development: each is a
                 function that returns a value or raises.

    Text is [string]: characters are the 8-bit ones of [ascii].  A run is a
    computation that returns or raises and records the calls made to the
    engines, so that what is and what is not handed to an engine can be
    stated. *)

From Stdlib Require Import ZArith NArith List Ascii String Bool DecimalString.
From stdpp Require Import base list strings.

(** ** Characters and text helpers *)

Definition LF : ascii := "010"%char.
Definition CR : ascii := "013"%char.
Definition COMMA : ascii := ","%char.
Definition DQUOTE : ascii := "034"%char.

(** One-character strings and the two line endings. *)
Definition chr (c : ascii) : string := String c EmptyString.
Definition nl : string := chr LF.
Definition crlf : string := String CR (String LF EmptyString).

(** ** The [str] methods used by the program *)

Module PyStr.

(** [str.isspace] on one character: the white-space code points below
    256 (tab to carriage return, the four separators 28 to 31, the space,
    NEL and the no-break space). *)
Definition isspace (c : ascii) : bool :=
  let n := N_of_ascii c in
  ((9 <=? n) && (n <=? 13) || (28 <=? n) && (n <=? 32)
   || (n =? 133) || (n =? 160))%N.

Fixpoint lstrip (s : string) : string :=
  match s with
  | EmptyString => EmptyString
  | String c s' => if isspace c then lstrip s' else s
  end.

Fixpoint rstrip (s : string) : string :=
  match s with
  | EmptyString => EmptyString
  | String c s' =>
      match rstrip s' with
      | EmptyString => if isspace c then EmptyString else chr c
      | t => String c t
      end
  end.

(** [s.strip()] *)
Definition strip (s : string) : string := rstrip (lstrip s).

(** A text of white space only; the empty text is one. *)
Fixpoint all_space (s : string) : bool :=
  match s with
  | EmptyString => true
  | String c s' => isspace c && all_space s'
  end.

(** [s.replace(old, new)] for one-character [old] and [new]. *)
Fixpoint replace (old new : ascii) (s : string) : string :=
  match s with
  | EmptyString => EmptyString
  | String c s' => String (if (c =? old)%char then new else c) (replace old new s')
  end.

(** An [int] inside an f-string: its decimal digits, with a sign when
    negative. *)
Definition str_of_int (n : Z) : string := NilZero.string_of_int (Z.to_int n).

End PyStr.

(** ** The dictionary [total_pii_found] *)

Module PyDict.

(** A [dict] from [str] to [int]: the items in insertion order, one per
    key. *)
Definition dict : Type := list (string * Z).

Definition empty : dict := [].

(** [d.get(key, default)] *)
Fixpoint get (d : dict) (key : string) (default : Z) : Z :=
  match d with
  | [] => default
  | (k, v) :: d' => if String.eqb k key then v else get d' key default
  end.

(** [d[key] = value]: a key already there keeps its place, a new key goes
    last. *)
Fixpoint setitem (d : dict) (key : string) (value : Z) : dict :=
  match d with
  | [] => [(key, value)]
  | (k, v) :: d' =>
      if String.eqb k key then (k, value) :: d'
      else (k, v) :: setitem d' key value
  end.

(** [key in d] *)
Definition contains (d : dict) (key : string) : bool :=
  existsb (fun kv => String.eqb (fst kv) key) d.

Definition keys (d : dict) : list string := map fst d.

(** The sum of the values. *)
Definition total (d : dict) : Z := fold_right (fun kv acc => (snd kv + acc)%Z) 0%Z d.

End PyDict.

(** ** The CSV reader and writer of the Python standard library *)

Module PyCsv.

(** [ParserState] of [_csv.c].  The three escape states are left out: the
    default dialect has no [escapechar], so they are never entered. *)
Inductive ParserState : Set :=
| START_RECORD
| START_FIELD
| IN_FIELD
| IN_QUOTED_FIELD
| QUOTE_IN_QUOTED_FIELD
| EAT_CRNL.

(** The part of [ReaderObj] that parsing reads and writes: the state, the
    fields saved for the current record and the field being read. *)
Record ReaderObj : Set := mkReader {
  state : ParserState;
  fields : list string;
  field : string
}.

(** [csv.Error], with its message. *)
Inductive Error : Set := Error_ (msg : string).

(** [csv.field_size_limit()], never changed by the program. *)
Definition field_limit : N := 131072.

Definition delimiter : ascii := COMMA.
Definition quotechar : ascii := DQUOTE.
Definition lineterminator : string := crlf.

Definition parse_reset : ReaderObj :=
  {| state := START_RECORD; fields := []; field := EmptyString |}.

Definition set_state (s : ParserState) (self : ReaderObj) : ReaderObj :=
  {| state := s; fields := fields self; field := field self |}.

(** [parse_save_field]: the field read so far joins the record. *)
Definition parse_save_field (self : ReaderObj) : ReaderObj :=
  {| state := state self;
     fields := fields self ++ [field self];
     field := EmptyString |}.

(** [parse_add_char]: refuses a character once the field holds
    [field_limit] of them. *)
Definition parse_add_char (self : ReaderObj) (c : ascii) : Error + ReaderObj :=
  if (field_limit <=? N.of_nat (String.length (field self)))%N
  then inl (Error_ "field larger than field limit (131072)")
  else inr {| state := state self;
              fields := fields self;
              field := field self +:+ chr c |}.

Definition is_newline (c : ascii) : bool := (c =? LF)%char || (c =? CR)%char.

(** The message of the error raised in [EAT_CRNL]. *)
Definition new_line_seen : string :=
  "new-line character seen in unquoted field - "
  +:+ "do you need to open the file with newline=''?".

(** The [START_FIELD] case of [parse_process_char]; [START_RECORD] falls
    through to it.  The end of a line is [None]. *)
Definition start_field (self : ReaderObj) (c : option ascii) : Error + ReaderObj :=
  match c with
  | None => inr (set_state START_RECORD (parse_save_field self))
  | Some ch =>
      if is_newline ch then inr (set_state EAT_CRNL (parse_save_field self))
      else if (ch =? quotechar)%char then inr (set_state IN_QUOTED_FIELD self)
      else if (ch =? delimiter)%char then inr (parse_save_field self)
      else match parse_add_char self ch with
           | inl e => inl e
           | inr r => inr (set_state IN_FIELD r)
           end
  end.

(** [parse_process_char] for the default dialect: a comma as delimiter,
    the double quote as quote character, [doublequote] on,
    [skipinitialspace] and [strict] off.  A NUL is a character like any
    other, as in CPython since 3.11. *)
Definition parse_process_char (self : ReaderObj) (c : option ascii)
  : Error + ReaderObj :=
  match state self with
  | START_RECORD =>
      match c with
      | None => inr self
      | Some ch =>
          if is_newline ch then inr (set_state EAT_CRNL self)
          else start_field (set_state START_FIELD self) c
      end
  | START_FIELD => start_field self c
  | IN_FIELD =>
      match c with
      | None => inr (set_state START_RECORD (parse_save_field self))
      | Some ch =>
          if is_newline ch then inr (set_state EAT_CRNL (parse_save_field self))
          else if (ch =? delimiter)%char
               then inr (set_state START_FIELD (parse_save_field self))
          else parse_add_char self ch
      end
  | IN_QUOTED_FIELD =>
      match c with
      | None => inr self
      | Some ch =>
          if (ch =? quotechar)%char then inr (set_state QUOTE_IN_QUOTED_FIELD self)
          else parse_add_char self ch
      end
  | QUOTE_IN_QUOTED_FIELD =>
      match c with
      | None => inr (set_state START_RECORD (parse_save_field self))
      | Some ch =>
          if (ch =? quotechar)%char then
            match parse_add_char self ch with
            | inl e => inl e
            | inr r => inr (set_state IN_QUOTED_FIELD r)
            end
          else if (ch =? delimiter)%char
               then inr (set_state START_FIELD (parse_save_field self))
          else if is_newline ch
               then inr (set_state EAT_CRNL (parse_save_field self))
          else match parse_add_char self ch with
               | inl e => inl e
               | inr r => inr (set_state IN_FIELD r)
               end
      end
  | EAT_CRNL =>
      match c with
      | None => inr (set_state START_RECORD self)
      | Some ch =>
          if is_newline ch then inr self
          else inl (Error_ new_line_seen)
      end
  end.

(** The characters of one line, in order. *)
Fixpoint feed_chars (self : ReaderObj) (line : string) : Error + ReaderObj :=
  match line with
  | EmptyString => inr self
  | String c rest =>
      match parse_process_char self (Some c) with
      | inl e => inl e
      | inr r => feed_chars r rest
      end
  end.

(** One turn of the [do ... while] of [Reader_iternext]: the characters of
    the line, then the end of line. *)
Definition feed_line (self : ReaderObj) (line : string) : Error + ReaderObj :=
  match feed_chars self line with
  | inl e => inl e
  | inr r => parse_process_char r None
  end.

(** Iterating an [io.StringIO]: the text cut after every line feed (the
    default [newline] of [StringIO] translates nothing and ends a line at
    a line feed only); a last line without line feed is a line too. *)
Fixpoint readlines (s : string) : list string :=
  match s with
  | EmptyString => []
  | String c s' =>
      if (c =? LF)%char then chr c :: readlines s'
      else match readlines s' with
           | [] => [chr c]
           | l :: ls => String c l :: ls
           end
  end.

(** What iterating a [csv.reader] gives: the records that the successive
    calls of [Reader_iternext] return, and how the iteration ends, [None]
    for [StopIteration] and [Some e] when a call raises [csv.Error].

    [self] is the reader in the middle of a call; a call that returns a
    record is followed by a call that starts from [parse_reset].  When the
    lines run out inside a call, the call returns the unfinished record if
    a field is being read or a quoted field is open, and the iteration
    stops otherwise. *)
Fixpoint iter_records (self : ReaderObj) (lines : list string)
  : list (list string) * option Error :=
  match lines with
  | [] =>
      if negb (String.length (field self) =? 0)%nat
         || match state self with IN_QUOTED_FIELD => true | _ => false end
      then ([fields (parse_save_field self)], None)
      else ([], None)
  | line :: rest =>
      match feed_line self line with
      | inl e => ([], Some e)
      | inr r =>
          match state r with
          | START_RECORD =>
              let '(recs, stop) := iter_records parse_reset rest in
              (fields r :: recs, stop)
          | _ => iter_records r rest
          end
      end
  end.

(** The same iteration, read off the text one character at a time: the
    end of line follows each line feed, and the end of the text when
    characters were read since the last line feed ([midline]). *)
Fixpoint scan_records (self : ReaderObj) (midline : bool) (s : string)
  : list (list string) * option Error :=
  match s with
  | EmptyString =>
      if midline then
        match parse_process_char self None with
        | inl e => ([], Some e)
        | inr r =>
            match state r with
            | START_RECORD => ([fields r], None)
            | _ => iter_records r []
            end
        end
      else iter_records self []
  | String c s' =>
      match parse_process_char self (Some c) with
      | inl e => ([], Some e)
      | inr r =>
          if (c =? LF)%char then
            match parse_process_char r None with
            | inl e => ([], Some e)
            | inr r' =>
                match state r' with
                | START_RECORD =>
                    let '(recs, stop) := scan_records parse_reset false s' in
                    (fields r' :: recs, stop)
                | _ => scan_records r' false s'
                end
            end
          else scan_records r true s'
      end
  end.

(** The iteration part-way through a text: the records yielded once the
    characters of [s] are read, and then the error raised, if any, or the
    reader as it stands, with whether characters were read since the last
    line feed.  [scan_records] is this, followed by the end of the
    text. *)
Fixpoint feed_text (self : ReaderObj) (midline : bool) (s : string)
  : list (list string) * (Error + ReaderObj * bool) :=
  match s with
  | EmptyString => ([], inr (self, midline))
  | String c s' =>
      match parse_process_char self (Some c) with
      | inl e => ([], inl e)
      | inr r =>
          if (c =? LF)%char then
            match parse_process_char r None with
            | inl e => ([], inl e)
            | inr r' =>
                match state r' with
                | START_RECORD =>
                    let '(recs, after) := feed_text parse_reset false s' in
                    (fields r' :: recs, after)
                | _ => feed_text r' false s'
                end
            end
          else feed_text r true s'
      end
  end.

(** Whether [parse_process_char] adds the character to the field being
    read, by the state it is in: the branches that call
    [parse_add_char]. *)
Definition adds_char (st : ParserState) (c : ascii) : bool :=
  match st with
  | START_RECORD | START_FIELD =>
      negb (is_newline c) && negb (c =? quotechar)%char
      && negb (c =? delimiter)%char
  | IN_FIELD => negb (is_newline c) && negb (c =? delimiter)%char
  | IN_QUOTED_FIELD => negb (c =? quotechar)%char
  | QUOTE_IN_QUOTED_FIELD =>
      (c =? quotechar)%char
      || negb (c =? delimiter)%char && negb (is_newline c)
  | EAT_CRNL => false
  end.

(** A text without quote character. *)
Fixpoint quote_free (s : string) : bool :=
  match s with
  | EmptyString => true
  | String c s' => negb (c =? quotechar)%char && quote_free s'
  end.

(** [csv.reader(io.StringIO(text))], as the records it yields. *)
Definition reader (text : string) : list (list string) * option Error :=
  iter_records parse_reset (readlines text).

(** *** The writer *)

(** The part of [WriterObj] that joining fields uses: the record buffer
    and the number of fields joined. *)
Record WriterObj : Set := mkWriter {
  rec : string;
  num_fields : nat
}.

Definition join_reset : WriterObj := {| rec := EmptyString; num_fields := 0 |}.

(** The characters that make [join_append_data] quote a field under
    [QUOTE_MINIMAL]: the delimiter, the quote character and the
    characters of a line ending. *)
Definition special (c : ascii) : bool :=
  (c =? delimiter)%char || (c =? quotechar)%char
  || (c =? LF)%char || (c =? CR)%char.

(** First pass of [join_append_data]: whether the field gets quoted. *)
Fixpoint wants_quote (quoted : bool) (data : string) : bool :=
  match data with
  | EmptyString => quoted
  | String c rest => wants_quote (quoted || special c) rest
  end.

(** The field's characters as copied to the record, a quote character
    doubled. *)
Fixpoint copy_data (data : string) : string :=
  match data with
  | EmptyString => EmptyString
  | String c rest =>
      if (c =? quotechar)%char then String quotechar (String c (copy_data rest))
      else String c (copy_data rest)
  end.

(** A field as [join_append_data] copies it, between quote characters
    when [quoted]. *)
Definition render (quoted : bool) (data : string) : string :=
  (if quoted then chr quotechar else EmptyString)
  +:+ copy_data data
  +:+ (if quoted then chr quotechar else EmptyString).

(** A text without line feed. *)
Fixpoint no_LF (s : string) : bool :=
  match s with
  | EmptyString => true
  | String c s' => negb (c =? LF)%char && no_LF s'
  end.

(** A field that the reader accepts: no longer than [field_limit]. *)
Definition fits (data : string) : Prop :=
  (N.of_nat (String.length data) <= field_limit)%N.

(** Where the reader stands after a field, by where it stood before. *)
Definition after_field (st : ParserState) (quoted : bool) (data : string)
  : ParserState :=
  if quoted then QUOTE_IN_QUOTED_FIELD
  else match data with
       | EmptyString => st
       | String _ _ => IN_FIELD
       end.

Definition at_field_start (st : ParserState) : Prop :=
  st = START_RECORD \/ st = START_FIELD.

(** The fields after the first, each behind a delimiter. *)
Fixpoint more_fields (row : list string) : string :=
  match row with
  | [] => EmptyString
  | data :: rest =>
      chr delimiter +:+ render (wants_quote false data) data +:+ more_fields rest
  end.

(** The one-field record of an empty field is the only one that the
    writer quotes without need. *)
Definition forced_quote (data : string) (rest : list string) : bool :=
  match data, rest with
  | EmptyString, [] => true
  | _, _ => false
  end.

(** A record as the writer joins it, before the line terminator. *)
Definition row_body (row : list string) : string :=
  match row with
  | [] => EmptyString
  | data :: rest =>
      render (forced_quote data rest || wants_quote false data) data
      +:+ more_fields rest
  end.

(** Records, each followed by a line ending of its own. *)
Fixpoint lines_text (l : list (list string * string)) : string :=
  match l with
  | [] => EmptyString
  | (row, ending) :: l' => row_body row +:+ ending +:+ lines_text l'
  end.

(** The two line endings that the reader takes for the end of a record. *)
Definition line_ending (t : string) : Prop := t = nl \/ t = crlf.

(** The reader holds fields within the limit only. *)
Definition reader_fits (r : ReaderObj) : Prop :=
  Forall fits (fields r) /\ fits (field r).

(** [join_append]: [None] is the NULL field of the C code. *)
Definition join_append (self : WriterObj) (data : option string) (quoted : bool)
  : WriterObj :=
  let body := match data with Some d => d | None => EmptyString end in
  let q := wants_quote quoted body in
  {| rec := rec self
            +:+ (if (0 <? num_fields self)%nat then chr delimiter else EmptyString)
            +:+ (if q then chr quotechar else EmptyString)
            +:+ copy_data body
            +:+ (if q then chr quotechar else EmptyString);
     num_fields := S (num_fields self) |}.

(** [csv_writerow] on a list of [str]: the text handed to the file's
    [write].  A record of one empty field is written as a quoted empty
    field. *)
Definition writerow (row : list string) : string :=
  let self := fold_left (fun w fld => join_append w (Some fld) false) row join_reset in
  let self :=
    if (0 <? num_fields self)%nat && (String.length (rec self) =? 0)%nat
    then join_append {| rec := rec self; num_fields := pred (num_fields self) |}
                     None true
    else self in
  rec self +:+ lineterminator.

(** [csv_writerows] into an empty [io.StringIO], then [getvalue()]. *)
Fixpoint writerows (rows : list (list string)) : string :=
  match rows with
  | [] => EmptyString
  | row :: rest => writerow row +:+ writerows rest
  end.

End PyCsv.


(** ** The Presidio engines, as the program sees them *)

Module Presidio.

(** [RecognizerResult]: the program reads [entity_type] only; the span
    goes to the anonymizer.  The score is left out. *)
Record RecognizerResult : Set := mkResult {
  entity_type : string;
  start : Z;
  end_ : Z
}.

(** [OperatorConfig(operator_name, params)] *)
Record OperatorConfig : Set := mkOperatorConfig {
  operator_name : string;
  params : list (string * string)
}.

(** The [operators] dictionary of [anonymize]. *)
Definition Operators : Set := list (string * OperatorConfig).

(** [EngineResult]: the program reads [text] only. *)
Record EngineResult : Set := mkEngineResult {
  text : string
}.

End Presidio.

Import Presidio.

(** ** Exceptions, calls to the engines, and the monad of the pipeline *)

(** The exceptions that can leave [deidentify_data]: [StopIteration] from
    [next], [csv.Error] from the reader, and whatever an engine raises. *)
Inductive PyExc : Set :=
| StopIteration
| CsvError (e : PyCsv.Error)
| EngineError (cls msg : string).

(** A call to an engine, with its arguments. *)
Inductive Call : Set :=
| Analyze (text language : string)
| Anonymize (text : string) (analyzer_results : list RecognizerResult)
            (operators : Operators).

(** A computation returns a value or raises; either way it leaves the
    calls made to the engines so far, oldest first. *)
Inductive Outcome (A : Type) : Type :=
| Returned (a : A) (calls : list Call)
| Raised (e : PyExc) (calls : list Call).
Arguments Returned {A} a calls.
Arguments Raised {A} e calls.

Definition M (A : Type) : Type := list Call -> Outcome A.

Definition ret {A} (a : A) : M A := fun calls => Returned a calls.

Definition raise {A} (e : PyExc) : M A := fun calls => Raised e calls.

Definition bind {A B} (m : M A) (k : A -> M B) : M B :=
  fun calls =>
    match m calls with
    | Returned a calls' => k a calls'
    | Raised e calls' => Raised e calls'
    end.

Notation "x <- c1 ;; c2" := (bind c1 (fun x => c2))
  (at level 62, c1 at next level, right associativity).

Definition calls_of {A} (o : Outcome A) : list Call :=
  match o with
  | Returned _ calls => calls
  | Raised _ calls => calls
  end.

(** ** Two small engines, for examples *)

Module Demo.

(** Title case on ASCII text, to stand for [str.title()] in the examples:
    the letters are A to Z and a to z; a letter that follows a letter is
    lowered, any other is raised. *)
Definition isupper (c : ascii) : bool :=
  let n := N_of_ascii c in ((65 <=? n) && (n <=? 90))%N.
Definition islower (c : ascii) : bool :=
  let n := N_of_ascii c in ((97 <=? n) && (n <=? 122))%N.
Definition iscased (c : ascii) : bool := isupper c || islower c.
Definition upper (c : ascii) : ascii :=
  if islower c then ascii_of_N (N_of_ascii c - 32) else c.
Definition lower (c : ascii) : ascii :=
  if isupper c then ascii_of_N (N_of_ascii c + 32) else c.

Fixpoint title_from (previous_is_cased : bool) (s : string) : string :=
  match s with
  | EmptyString => EmptyString
  | String c s' =>
      String (if previous_is_cased then lower c else upper c)
             (title_from (iscased c) s')
  end.

Definition title (s : string) : string := title_from false s.

Fixpoint has_char (c : ascii) (s : string) : bool :=
  match s with
  | EmptyString => false
  | String c' s' => (c' =? c)%char || has_char c s'
  end.

(** Flags a text that holds an at sign, whole, as an e-mail address. *)
Definition analyze (text language : string) : PyExc + list RecognizerResult :=
  if has_char "@" text
  then inr [mkResult "EMAIL_ADDRESS" 0 (Z.of_nat (String.length text))]
  else inr [].

(** Flags every text, whole, as a person's name. *)
Definition analyze_all (text language : string) : PyExc + list RecognizerResult :=
  inr [mkResult "PERSON" 0 (Z.of_nat (String.length text))].

(** Raises on every text. *)
Definition analyze_fails (text language : string) : PyExc + list RecognizerResult :=
  inl (EngineError "ValueError" "no recognizer").

Definition new_value (ops : Operators) : string :=
  match ops with
  | (_, cfg) :: _ =>
      match params cfg with
      | (_, v) :: _ => v
      | [] => EmptyString
      end
  | [] => EmptyString
  end.

(** Replaces one span by the substitute. *)
Definition replace_span (sub : string) (text : string) (r : RecognizerResult)
  : string :=
  let s := Z.to_nat (start r) in
  let e := Z.to_nat (end_ r) in
  substring 0 s text +:+ sub +:+ substring e (String.length text - e) text.

(** The replace operator on spans that do not overlap, given last span
    first. *)
Definition anonymize (text : string) (results : list RecognizerResult)
           (ops : Operators) : PyExc + EngineResult :=
  inr (mkEngineResult (fold_left (replace_span (new_value ops)) results text)).

(** A header and one data row, with an address in it. *)
Definition sample : string :=
  "name,email" +:+ nl +:+ "Alice,alice@example.com" +:+ nl.

(** A header and one data row, with nothing to detect and a blank cell. *)
Definition clean_sample : string :=
  "name,email,note" +:+ nl +:+ "Alice,none,  " +:+ nl.

End Demo.

(** ** [deidentify_data] *)

Section Pipeline.

(** [analyzer.analyze(text=..., language=...)] and
    [anonymizer.anonymize(text=..., analyzer_results=..., operators=...)]:
    each returns or raises. *)
Variable analyze : string -> string -> PyExc + list RecognizerResult.
Variable anonymize :
  string -> list RecognizerResult -> Operators -> PyExc + EngineResult.

(** [s.title()], as Python computes it. *)
Variable title : string -> string.

Definition call_analyze (text language : string) : M (list RecognizerResult) :=
  fun calls =>
    let calls' := calls ++ [Analyze text language] in
    match analyze text language with
    | inl e => Raised e calls'
    | inr results => Returned results calls'
    end.

Definition call_anonymize (text : string) (results : list RecognizerResult)
           (operators : Operators) : M EngineResult :=
  fun calls =>
    let calls' := calls ++ [Anonymize text results operators] in
    match anonymize text results operators with
    | inl e => Raised e calls'
    | inr r => Returned r calls'
    end.

(** [{"DEFAULT": OperatorConfig("replace", {"new_value": "XXXXXX"})}] *)
Definition operators : Operators :=
  [("DEFAULT", mkOperatorConfig "replace" [("new_value", "XXXXXX")])].

(** [enumerate(row)] *)
Fixpoint enumerate_from {A} (i : nat) (l : list A) : list (nat * A) :=
  match l with
  | [] => []
  | x :: l' => (i, x) :: enumerate_from (S i) l'
  end.
Definition enumerate {A} (l : list A) : list (nat * A) := enumerate_from 0 l.

(** Body of [for entity in results] (lines 45-47). *)
Definition for_entity (total_pii_found : PyDict.dict) (entity : RecognizerResult)
  : PyDict.dict :=
  let entity_type := entity_type entity in
  PyDict.setitem total_pii_found entity_type
                 (PyDict.get total_pii_found entity_type 0 + 1)%Z.

(** Body of [for i, cell in enumerate(row)] (lines 29-47), on the two
    variables it updates. *)
Definition for_cell (st : list string * PyDict.dict) (ic : nat * string)
  : M (list string * PyDict.dict) :=
  let '(deidentified_row, total_pii_found) := st in
  let '(i, cell) := ic in
  if String.eqb (PyStr.strip cell) EmptyString then ret st
  else
    results <- call_analyze cell "en" ;;
    match results with
    | [] => ret st
    | _ :: _ =>
        anonymized_result <- call_anonymize cell results operators ;;
        ret (<[i := text anonymized_result]> deidentified_row,
             fold_left for_entity results total_pii_found)
    end.

Fixpoint for_cells (cells : list (nat * string)) (st : list string * PyDict.dict)
  : M (list string * PyDict.dict) :=
  match cells with
  | [] => ret st
  | ic :: rest => st' <- for_cell st ic ;; for_cells rest st'
  end.

(** Body of [for row in reader] (lines 27-49). *)
Definition for_row (st : list (list string) * PyDict.dict) (row : list string)
  : M (list (list string) * PyDict.dict) :=
  let '(deidentified_lines, total_pii_found) := st in
  row_st <- for_cells (enumerate row) (row, total_pii_found) ;;
  let '(deidentified_row, total_pii_found) := row_st in
  ret (deidentified_lines ++ [deidentified_row], total_pii_found).

(** [for row in reader]: the records left, then the end of the iteration,
    which raises when the reader does. *)
Fixpoint for_rows (rows : list (list string)) (stop : option PyCsv.Error)
         (st : list (list string) * PyDict.dict)
  : M (list (list string) * PyDict.dict) :=
  match rows with
  | [] => match stop with
          | None => ret st
          | Some e => raise (CsvError e)
          end
  | row :: rest => st' <- for_row st row ;; for_rows rest stop st'
  end.

(** Lines 18-49: the de-identified grid and the counts. *)
Definition deidentify_grid (input_csv_content : string)
  : M (list (list string) * PyDict.dict) :=
  match PyCsv.reader input_csv_content with
  | ([], None) => raise StopIteration
  | ([], Some e) => raise (CsvError e)
  | (header :: rows, stop) => for_rows rows stop ([header], PyDict.empty)
  end.

(** Lines 51-57: the report. *)
Definition report_line (item : string * Z) : string :=
  let '(key, count) := item in
  "Total " +:+ title (PyStr.replace "_" " " key)
  +:+ " found: " +:+ PyStr.str_of_int count +:+ nl.

Definition build_report (total_pii_found : PyDict.dict) : string :=
  let report_content := "Summary Report" +:+ nl in
  let report_content := report_content +:+ "--------------" +:+ nl in
  match total_pii_found with
  | [] => report_content +:+ "No PII found in the provided data." +:+ nl
  | _ :: _ =>
      fold_left (fun report_content item => report_content +:+ report_line item)
                total_pii_found report_content
  end.

(** The line of the report as the specification words it: the label,
    then a colon, the count and the word found.  The program writes
    [report_line]; this one is here to be compared with it. *)
Definition worded_report_line (item : string * Z) : string :=
  let '(key, count) := item in
  title (PyStr.replace "_" " " key)
  +:+ ": " +:+ PyStr.str_of_int count +:+ " found" +:+ nl.

(** The report of a run that found nothing. *)
Definition no_pii_report : string :=
  "Summary Report" +:+ nl +:+ "--------------" +:+ nl
  +:+ "No PII found in the provided data." +:+ nl.

(** [deidentify_data(input_csv_content)] *)
Definition deidentify_data (input_csv_content : string) : M (string * string) :=
  grid_st <- deidentify_grid input_csv_content ;;
  let '(deidentified_lines, total_pii_found) := grid_st in
  let report_content := build_report total_pii_found in
  let deidentified_csv := PyCsv.writerows deidentified_lines in
  ret (deidentified_csv, report_content).

(** *** What the loops compute, cell by cell *)

(** The test of line 29. *)
Definition blank (cell : string) : bool :=
  String.eqb (PyStr.strip cell) EmptyString.

(** The entities the detector returns for a cell that is scanned. *)
Definition detected (cell : string) : list RecognizerResult :=
  if blank cell then []
  else match analyze cell "en" with
       | inr results => results
       | inl _ => []
       end.

(** The text that ends in the output row for a cell. *)
Definition masked (cell : string) : string :=
  match detected cell with
  | [] => cell
  | results =>
      match anonymize cell results operators with
      | inr r => text r
      | inl _ => cell
      end
  end.

(** The calls that a cell causes. *)
Definition cell_calls (cell : string) : list Call :=
  if blank cell then []
  else Analyze cell "en" ::
       match analyze cell "en" with
       | inr (r :: rs) => [Anonymize cell (r :: rs) operators]
       | _ => []
       end.

(** The exception that a cell raises, if any. *)
Definition cell_raises (cell : string) : option PyExc :=
  if blank cell then None
  else match analyze cell "en" with
       | inl e => Some e
       | inr [] => None
       | inr results =>
           match anonymize cell results operators with
           | inl e => Some e
           | inr _ => None
           end
       end.

(** A call as the engine answers it: the exception, if it raises. *)
Definition call_raises (c : Call) : option PyExc :=
  match c with
  | Analyze t l => match analyze t l with inl e => Some e | inr _ => None end
  | Anonymize t rs ops =>
      match anonymize t rs ops with inl e => Some e | inr _ => None end
  end.

(** What every run keeps true about its calls: each is made on a text
    that is not blank, in the working language, with the one policy; and
    a call that the engine answers by raising ends the run with that
    exception. *)
Definition call_wf (c : Call) : Prop :=
  match c with
  | Analyze t l => blank t = false /\ l = "en"
  | Anonymize t rs ops => blank t = false /\ ops = operators
  end.

Definition sound {A} (m : M A) : Prop :=
  forall calls, exists cs,
    calls_of (m calls) = calls ++ cs /\
    Forall call_wf cs /\
    forall c e, In c cs -> call_raises c = Some e ->
                m calls = Raised e (calls ++ cs).

End Pipeline.


(** ** Reading a trace, and the order of the report *)

(** The texts handed to the detector, and those handed to the anonymizer,
    in the order of the calls. *)
Definition analyzed (calls : list Call) : list string :=
  flat_map (fun c => match c with
                     | Analyze t _ => [t]
                     | Anonymize _ _ _ => []
                     end) calls.

Definition anonymized (calls : list Call) : list string :=
  flat_map (fun c => match c with
                     | Analyze _ _ => []
                     | Anonymize t _ _ => [t]
                     end) calls.

(** The keys of a dictionary filled by assignments to [labels] in turn:
    each label at the place of its first occurrence. *)
Definition first_seen (labels : list string) : list string :=
  fold_left (fun seen label =>
               if existsb (String.eqb label) seen then seen else seen ++ [label])
            labels [].

(** ** The upload route [process_file] *)

Module Flask.

(** [werkzeug.datastructures.FileStorage]: the name the client gave and
    the bytes of the file.  A part of the form without file name is no
    file, so the name is a [str], possibly empty. *)
Record FileStorage : Set := mkFile {
  filename : string;
  content : string
}.

(** [request.files]: the uploaded files by form field, in the order of
    the form; indexing gives the first file of a field. *)
Definition Files : Set := list (string * FileStorage).

Fixpoint getitem (files : Files) (key : string) : option FileStorage :=
  match files with
  | [] => None
  | (k, f) :: files' => if String.eqb k key then Some f else getitem files' key
  end.

(** What a view returns: the object given to [jsonify], with the status
    code (200 when the view gives none). *)
Record Response : Set := mkResponse {
  json : list (string * string);
  status : nat
}.

End Flask.

Import Flask.

(** [str(e)] for the exceptions of the pipeline: [StopIteration()] has no
    argument, the others carry their message. *)
Definition str_of_exc (e : PyExc) : string :=
  match e with
  | StopIteration => EmptyString
  | CsvError (PyCsv.Error_ msg) => msg
  | EngineError _ msg => msg
  end.

Section Upload.

Variable analyze : string -> string -> PyExc + list RecognizerResult.
Variable anonymize :
  string -> list RecognizerResult -> Operators -> PyExc + EngineResult.
Variable title : string -> string.

(** [bytes.decode('utf-8')]: the text, or the message of the
    [UnicodeDecodeError]. *)
Variable decode : string -> string + string.

(** The answer of the [except] clause (line 269). *)
Definition processing_error (detail : string) : Response :=
  mkResponse [("error", "An error occurred during processing: " +:+ detail)] 500.

(** [process_file()] (lines 251-269) on the files of the request: the
    response, [None] when the view falls off its end, and the calls made
    to the engines.  [if file:] is [bool(file.filename)]. *)
Definition process_file (files : Files) (calls : list Call)
  : option Response * list Call :=
  match getitem files "file" with
  | None => (Some (mkResponse [("error", "No file part in the request")] 400), calls)
  | Some file =>
      if String.eqb (filename file) EmptyString
      then (Some (mkResponse [("error", "No selected file")] 400), calls)
      else if negb (String.eqb (filename file) EmptyString) then
        match decode (content file) with
        | inl detail => (Some (processing_error detail), calls)
        | inr csv_content =>
            match deidentify_data analyze anonymize title csv_content calls with
            | Returned (deidentified_csv, report_content) calls' =>
                (Some (mkResponse [("deidentified_csv", deidentified_csv);
                                   ("report", report_content)] 200), calls')
            | Raised e calls' => (Some (processing_error (str_of_exc e)), calls')
            end
        end
      else (None, calls)
  end.

End Upload.

Module DemoUpload.

(** Decodes bytes below 128 to themselves and refuses the others. *)
Fixpoint decode (bytes : string) : string + string :=
  match bytes with
  | EmptyString => inr EmptyString
  | String b rest =>
      if (N_of_ascii b <? 128)%N
      then match decode rest with
           | inl e => inl e
           | inr text => inr (String b text)
           end
      else inl "'utf-8' codec can't decode byte"
  end.

(** A text put end to end with itself [n] times over: 2 to the [n]
    copies. *)
Fixpoint doubled (n : nat) (s : string) : string :=
  match n with
  | 0 => s
  | S n' => doubled n' (s +:+ s)
  end.

(** A field of 262144 letters, twice the field size limit. *)
Definition long_field : string := doubled 18 "a".

(** An upload of [Demo.sample] under the field [file]. *)
Definition upload : Files := [("file", mkFile "people.csv" Demo.sample)].

End DemoUpload.

Arguments blank cell : simpl never.

(** * Properties *)

(** ** Text *)

(** [append] does not unfold under [simpl]; its two equations. *)
Lemma append_nil_l (s : string) : EmptyString +:+ s = s.
Proof. reflexivity. Qed.

Lemma append_cons (c : ascii) (s t : string) :
  String c s +:+ t = String c (s +:+ t).
Proof. reflexivity. Qed.

Lemma append_nil_r (s : string) : s +:+ EmptyString = s.
Proof. induction s as [|c s IH]; [done | by rewrite append_cons, IH]. Qed.

Lemma append_assoc (s1 s2 s3 : string) : (s1 +:+ s2) +:+ s3 = s1 +:+ (s2 +:+ s3).
Proof.
  induction s1 as [|c s1 IH]; [done | by rewrite !append_cons, IH].
Qed.

Lemma length_append (s1 s2 : string) :
  String.length (s1 +:+ s2) = String.length s1 + String.length s2.
Proof.
  induction s1 as [|c s1 IH]; [done | rewrite append_cons; simpl; by rewrite IH].
Qed.

(** ** The loops *)

Section PipelineFacts.

Variable analyze : string -> string -> PyExc + list RecognizerResult.
Variable anonymize :
  string -> list RecognizerResult -> Operators -> PyExc + EngineResult.
Variable title : string -> string.

(** One cell: the step either raises what the cell raises, or writes the
    masked text at the cell's place and counts what was detected. *)
Lemma for_cell_eq (pre rest : list string) (cell : string)
      (total : PyDict.dict) (calls : list Call) :
  for_cell analyze anonymize (pre ++ cell :: rest, total) (length pre, cell) calls =
  match cell_raises analyze anonymize cell with
  | Some e => Raised e (calls ++ cell_calls analyze cell)
  | None => Returned (pre ++ masked analyze anonymize cell :: rest,
                      fold_left for_entity (detected analyze cell) total)
                     (calls ++ cell_calls analyze cell)
  end.
Proof.
  unfold for_cell, cell_raises, masked, detected, cell_calls.
  fold (blank cell). destruct (blank cell) eqn:Hb.
  - unfold ret. by rewrite app_nil_r.
  - unfold bind, call_analyze.
    destruct (analyze cell "en") as [e|[|r rs]] eqn:Ha; simpl; try done.
    unfold call_anonymize, ret.
    destruct (anonymize cell (r :: rs) operators) as [e|res] eqn:Hm;
      rewrite <- app_assoc; simpl; try done.
    do 2 f_equal. f_equal.
    by rewrite (insert_app_r_alt pre), Nat.sub_diag.
Qed.

(** What a cell that raises nothing contributes. *)
Lemma cell_blank (cell : string) :
  blank cell = true ->
  cell_raises analyze anonymize cell = None /\
  masked analyze anonymize cell = cell /\
  detected analyze cell = [] /\
  cell_calls analyze cell = [].
Proof.
  intros Hb. unfold cell_raises, masked, detected, cell_calls.
  by rewrite Hb.
Qed.

Lemma cell_scanned (cell : string) :
  blank cell = false ->
  cell_raises analyze anonymize cell = None ->
  exists results,
    analyze cell "en" = inr results /\
    detected analyze cell = results /\
    match results with
    | [] => masked analyze anonymize cell = cell /\
            cell_calls analyze cell = [Analyze cell "en"]
    | _ :: _ =>
        exists r, anonymize cell results operators = inr r /\
                  masked analyze anonymize cell = text r /\
                  cell_calls analyze cell =
                    [Analyze cell "en"; Anonymize cell results operators]
    end.
Proof.
  intros Hb. unfold cell_raises, masked, detected, cell_calls. rewrite Hb.
  destruct (analyze cell "en") as [e|[|r rs]] eqn:Ha; [done | eauto |].
  destruct (anonymize cell (r :: rs) operators) as [e|res] eqn:Hm; [done|].
  intros _. exists (r :: rs). split_and!; [done..|].
  exists res. by rewrite Hm.
Qed.

(** The loop over the cells of a row, started at the cell of index
    [length pre]. *)
Lemma for_cells_returned (row pre : list string) (total : PyDict.dict)
      (calls : list Call) drow' total' calls' :
  for_cells analyze anonymize (enumerate_from (length pre) row)
            (pre ++ row, total) calls
  = Returned (drow', total') calls' ->
  drow' = pre ++ map (masked analyze anonymize) row /\
  total' = fold_left for_entity (flat_map (detected analyze) row) total /\
  calls' = calls ++ flat_map (cell_calls analyze) row /\
  Forall (fun cell => cell_raises analyze anonymize cell = None) row.
Proof.
  revert pre total calls drow' total' calls'.
  induction row as [|cell row IH]; intros pre total calls drow' total' calls';
    cbn [for_cells enumerate_from].
  - unfold ret. intros [= <- <- <-]. simpl. by rewrite !app_nil_r.
  - unfold bind at 1. rewrite for_cell_eq.
    destruct (cell_raises analyze anonymize cell) eqn:Hr; [done|].
    replace (pre ++ masked analyze anonymize cell :: row)
      with ((pre ++ [masked analyze anonymize cell]) ++ row)
      by (by rewrite <- app_assoc).
    replace (S (length pre))
      with (length (pre ++ [masked analyze anonymize cell]))
      by (rewrite length_app; simpl; lia).
    intros H. apply IH in H as (-> & -> & -> & Hall).
    cbn [flat_map map].
    rewrite <- !app_assoc, fold_left_app. simpl. by split_and!; [..|constructor].
Qed.

Lemma for_row_returned (row : list string) lines total calls lines' total' calls' :
  for_row analyze anonymize (lines, total) row calls
  = Returned (lines', total') calls' ->
  lines' = lines ++ [map (masked analyze anonymize) row] /\
  total' = fold_left for_entity (flat_map (detected analyze) row) total /\
  calls' = calls ++ flat_map (cell_calls analyze) row /\
  Forall (fun cell => cell_raises analyze anonymize cell = None) row.
Proof.
  unfold for_row, bind, enumerate.
  destruct (for_cells _ _ _ _ _) as [[drow t] cs|] eqn:H; [|done].
  apply (for_cells_returned row []) in H as (-> & -> & -> & Hall).
  unfold ret. by intros [= <- <- <-].
Qed.

Lemma for_rows_returned (rows : list (list string)) stop lines total calls
      lines' total' calls' :
  for_rows analyze anonymize rows stop (lines, total) calls
  = Returned (lines', total') calls' ->
  stop = None /\
  lines' = lines ++ map (map (masked analyze anonymize)) rows /\
  total' = fold_left for_entity
                     (flat_map (flat_map (detected analyze)) rows) total /\
  calls' = calls ++ flat_map (flat_map (cell_calls analyze)) rows /\
  Forall (Forall (fun cell => cell_raises analyze anonymize cell = None)) rows.
Proof.
  revert lines total calls lines' total' calls'.
  induction rows as [|row rows IH]; intros lines total calls lines' total' calls';
    cbn [for_rows].
  - destruct stop; [done|]. unfold ret. intros [= <- <- <-]. simpl.
    by rewrite !app_nil_r.
  - unfold bind at 1.
    destruct (for_row _ _ _ _ _) as [[l t] cs|] eqn:H; [|done].
    apply for_row_returned in H as (-> & -> & -> & Hall).
    intros H. apply IH in H as (-> & -> & -> & -> & Halls).
    cbn [flat_map map].
    rewrite <- !app_assoc, fold_left_app. simpl.
    by split_and!; [..|constructor].
Qed.

(** A run of lines 18-49 that returns: the input held a header and data
    rows, the reader stopped without error, and the grid and the counts
    are those of the cells. *)
Lemma deidentify_grid_returned input calls lines total calls' :
  deidentify_grid analyze anonymize input calls = Returned (lines, total) calls' ->
  exists header rows,
    PyCsv.reader input = (header :: rows, None) /\
    lines = header :: map (map (masked analyze anonymize)) rows /\
    total = fold_left for_entity
                      (flat_map (flat_map (detected analyze)) rows) PyDict.empty /\
    calls' = calls ++ flat_map (flat_map (cell_calls analyze)) rows /\
    Forall (Forall (fun cell => cell_raises analyze anonymize cell = None)) rows.
Proof.
  unfold deidentify_grid.
  destruct (PyCsv.reader input) as [[|header rows] stop]; [by destruct stop|].
  intros H. apply for_rows_returned in H as (-> & -> & -> & -> & Hall).
  by exists header, rows.
Qed.

Lemma deidentify_data_returned input calls csv report calls' :
  deidentify_data analyze anonymize title input calls = Returned (csv, report) calls' ->
  exists lines total,
    deidentify_grid analyze anonymize input calls = Returned (lines, total) calls' /\
    csv = PyCsv.writerows lines /\
    report = build_report title total.
Proof.
  unfold deidentify_data, bind.
  destruct (deidentify_grid _ _ _ _) as [[lines total] cs|]; [|done].
  unfold ret. intros [= <- <- <-]. by exists lines, total.
Qed.

(** *** Every run is sound *)

Lemma sound_ret {A} (a : A) : sound analyze anonymize (ret a).
Proof.
  intros calls. exists []. unfold ret. simpl.
  rewrite app_nil_r. split_and!; [done | constructor | by intros ?? []].
Qed.

Lemma sound_raise {A} (e : PyExc) : sound analyze anonymize (@raise A e).
Proof.
  intros calls. exists []. unfold raise. simpl.
  rewrite app_nil_r. split_and!; [done | constructor | by intros ?? []].
Qed.

Lemma sound_bind {A B} (m : M A) (k : A -> M B) :
  sound analyze anonymize m ->
  (forall a, sound analyze anonymize (k a)) ->
  sound analyze anonymize (bind m k).
Proof.
  intros Hm Hk calls. destruct (Hm calls) as (cs1 & Hc1 & Hwf1 & Hr1).
  unfold bind. destruct (m calls) as [a c1|e1 c1] eqn:Em; simpl in Hc1; subst c1.
  - destruct (Hk a (calls ++ cs1)) as (cs2 & Hc2 & Hwf2 & Hr2).
    exists (cs1 ++ cs2). rewrite app_assoc. split_and!.
    + done.
    + by apply Forall_app.
    + intros c e [Hin|Hin]%in_app_or Hc.
      * by specialize (Hr1 c e Hin Hc).
      * by apply (Hr2 c e).
  - exists cs1. split_and!; [done..|].
    intros c e Hin Hc. by injection (Hr1 c e Hin Hc) as ->.
Qed.

Lemma sound_call_analyze (cell : string) :
  blank cell = false -> sound analyze anonymize (call_analyze analyze cell "en").
Proof.
  intros Hb calls. exists [Analyze cell "en"]. unfold call_analyze.
  split_and!.
  - by destruct (analyze cell "en").
  - by repeat constructor.
  - intros c e [<-|[]]. simpl. by destruct (analyze cell "en"); intros [= ->].
Qed.

Lemma sound_call_anonymize (cell : string) (results : list RecognizerResult) :
  blank cell = false ->
  sound analyze anonymize (call_anonymize anonymize cell results operators).
Proof.
  intros Hb calls. exists [Anonymize cell results operators].
  unfold call_anonymize. split_and!.
  - by destruct (anonymize cell results operators).
  - by repeat constructor.
  - intros c e [<-|[]]. simpl.
    by destruct (anonymize cell results operators); intros [= ->].
Qed.

Lemma sound_for_cell st ic : sound analyze anonymize (for_cell analyze anonymize st ic).
Proof.
  destruct st as [drow total], ic as [i cell]. unfold for_cell.
  fold (blank cell). destruct (blank cell) eqn:Hb; [apply sound_ret|].
  apply sound_bind; [by apply sound_call_analyze|].
  intros [|r rs]; [apply sound_ret|].
  apply sound_bind; [by apply sound_call_anonymize|].
  intros res. apply sound_ret.
Qed.

Lemma sound_for_cells cells st :
  sound analyze anonymize (for_cells analyze anonymize cells st).
Proof.
  revert st. induction cells as [|ic cells IH]; intros st; simpl.
  - apply sound_ret.
  - apply sound_bind; [apply sound_for_cell | done].
Qed.

Lemma sound_for_row st row :
  sound analyze anonymize (for_row analyze anonymize st row).
Proof.
  destruct st as [lines total]. unfold for_row.
  apply sound_bind; [apply sound_for_cells|].
  intros [drow t]. apply sound_ret.
Qed.

Lemma sound_for_rows rows stop st :
  sound analyze anonymize (for_rows analyze anonymize rows stop st).
Proof.
  revert st. induction rows as [|row rows IH]; intros st; simpl.
  - destruct stop; [apply sound_raise | apply sound_ret].
  - apply sound_bind; [apply sound_for_row | done].
Qed.

Lemma sound_deidentify_grid input :
  sound analyze anonymize (deidentify_grid analyze anonymize input).
Proof.
  unfold deidentify_grid.
  destruct (PyCsv.reader input) as [[|header rows] [e|]];
    try apply sound_raise; apply sound_for_rows.
Qed.

Lemma sound_deidentify_data input :
  sound analyze anonymize (deidentify_data analyze anonymize title input).
Proof.
  unfold deidentify_data.
  apply sound_bind; [apply sound_deidentify_grid|].
  intros [lines total]. apply sound_ret.
Qed.

End PipelineFacts.

(** ** Blank cells *)

Lemma rstrip_empty (s : string) :
  PyStr.rstrip s = EmptyString <-> PyStr.all_space s = true.
Proof.
  induction s as [|c s IH]; simpl; [done|].
  destruct (PyStr.rstrip s) eqn:Hr.
  - destruct (PyStr.isspace c); simpl; [tauto|].
    split; [by unfold chr | done].
  - split; [done|]. intros [_ H]%andb_prop. apply IH in H. done.
Qed.

Lemma lstrip_cases (s : string) :
  (PyStr.all_space s = true /\ PyStr.lstrip s = EmptyString) \/
  (PyStr.all_space s = false /\
   exists c t, PyStr.lstrip s = String c t /\ PyStr.isspace c = false).
Proof.
  induction s as [|c s IH]; simpl; [by left|].
  destruct (PyStr.isspace c) eqn:Hc; simpl; [done|].
  right. split; [done|]. by exists c, s.
Qed.

(** The test of line 29 holds exactly on the texts of white space only. *)
Lemma blank_all_space (cell : string) :
  blank cell = true <-> PyStr.all_space cell = true.
Proof.
  unfold blank, PyStr.strip. rewrite String.eqb_eq, rstrip_empty.
  destruct (lstrip_cases cell) as [[H1 H2]|[H1 (c & t & H2 & H3)]];
    rewrite H2, H1; simpl; [done|].
  by rewrite H3.
Qed.

(** ** The dictionary *)

Section DictFacts.

Implicit Types (d : PyDict.dict) (key : string) (v : Z).

Lemma get_setitem d key v key' default :
  PyDict.get (PyDict.setitem d key v) key' default =
  if String.eqb key key' then v else PyDict.get d key' default.
Proof.
  induction d as [|[k0 v0] d IH]; simpl.
  - done.
  - destruct (String.eqb_spec k0 key) as [->|Hne]; simpl.
    + by destruct (String.eqb key key').
    + rewrite IH. destruct (String.eqb_spec k0 key') as [->|Hne'].
      * by rewrite (proj2 (String.eqb_neq key key')).
      * done.
Qed.

Lemma total_setitem d key v :
  PyDict.total (PyDict.setitem d key v)
  = (PyDict.total d - PyDict.get d key 0 + v)%Z.
Proof.
  induction d as [|[k0 v0] d IH]; simpl.
  - lia.
  - destruct (String.eqb k0 key); simpl; [lia|].
    fold (PyDict.total (PyDict.setitem d key v)). fold (PyDict.total d).
    rewrite IH. lia.
Qed.

Lemma keys_setitem d key v key' :
  In key' (PyDict.keys (PyDict.setitem d key v)) <->
  key' = key \/ In key' (PyDict.keys d).
Proof.
  unfold PyDict.keys. induction d as [|[k0 v0] d IH]; simpl.
  - intuition.
  - destruct (String.eqb_spec k0 key) as [->|Hne]; simpl.
    + intuition.
    + rewrite IH. intuition.
Qed.

Lemma NoDup_setitem d key v :
  List.NoDup (PyDict.keys d) -> List.NoDup (PyDict.keys (PyDict.setitem d key v)).
Proof.
  unfold PyDict.keys. induction d as [|[k0 v0] d IH]; simpl; intros Hnd.
  - constructor; [by intros [] | constructor].
  - apply List.NoDup_cons_iff in Hnd as [Hnin Hnd].
    destruct (String.eqb_spec k0 key) as [->|Hne]; simpl.
    + by constructor.
    + constructor; [|by apply IH].
      intros [Heq|Hin]%keys_setitem; [by subst | done].
Qed.

Lemma contains_keys d key :
  PyDict.contains d key = true <-> In key (PyDict.keys d).
Proof.
  unfold PyDict.contains, PyDict.keys. rewrite existsb_exists, in_map_iff.
  split.
  - intros ([k v] & Hin & Heq). simpl in Heq.
    apply String.eqb_eq in Heq. subst k. by exists (key, v).
  - intros ([k v] & Heq & Hin). simpl in Heq. subst k.
    exists (key, v). split; [done | apply String.eqb_refl].
Qed.

Lemma values_setitem d key v :
  Forall (fun kv => (0 < snd kv)%Z) d -> (0 < v)%Z ->
  Forall (fun kv => (0 < snd kv)%Z) (PyDict.setitem d key v).
Proof.
  intros Hd Hv. induction Hd as [|[k0 v0] d H0 Hd IH]; simpl.
  - by repeat constructor.
  - destruct (String.eqb k0 key); by constructor.
Qed.

Lemma get_nonneg d key :
  Forall (fun kv => (0 < snd kv)%Z) d -> (0 <= PyDict.get d key 0)%Z.
Proof.
  intros Hd. induction Hd as [|[k0 v0] d H0 Hd IH]; simpl in *; [lia|].
  destruct (String.eqb k0 key); lia.
Qed.

(** One counted entity. *)
Lemma get_for_entity d (e : RecognizerResult) key :
  PyDict.get (for_entity d e) key 0 =
  (PyDict.get d key 0 + if String.eqb (entity_type e) key then 1 else 0)%Z.
Proof.
  unfold for_entity. rewrite get_setitem.
  destruct (String.eqb_spec (entity_type e) key) as [->|]; lia.
Qed.

Lemma total_for_entity d (e : RecognizerResult) :
  PyDict.total (for_entity d e) = (PyDict.total d + 1)%Z.
Proof. unfold for_entity. rewrite total_setitem. lia. Qed.

(** The entities of type [key] among [results]. *)
Lemma get_for_entities (results : list RecognizerResult) d key :
  PyDict.get (fold_left for_entity results d) key 0 =
  (PyDict.get d key 0 +
   Z.of_nat (length (List.filter (fun e => String.eqb (entity_type e) key) results)))%Z.
Proof.
  revert d. induction results as [|e results IH]; intros d; simpl; [lia|].
  rewrite IH, get_for_entity.
  destruct (String.eqb (entity_type e) key); simpl; lia.
Qed.

Lemma total_for_entities (results : list RecognizerResult) d :
  PyDict.total (fold_left for_entity results d)
  = (PyDict.total d + Z.of_nat (length results))%Z.
Proof.
  revert d. induction results as [|e results IH]; intros d; simpl; [lia|].
  rewrite IH, total_for_entity. lia.
Qed.

Lemma keys_for_entities (results : list RecognizerResult) d key :
  In key (PyDict.keys (fold_left for_entity results d)) <->
  In key (PyDict.keys d) \/ In key (map entity_type results).
Proof.
  revert d. induction results as [|e results IH]; intros d; simpl.
  - intuition.
  - rewrite IH. unfold for_entity at 1. rewrite keys_setitem. intuition.
Qed.

Lemma NoDup_for_entities (results : list RecognizerResult) d :
  List.NoDup (PyDict.keys d) ->
  List.NoDup (PyDict.keys (fold_left for_entity results d)).
Proof.
  revert d. induction results as [|e results IH]; intros d Hd; simpl; [done|].
  apply IH. by apply NoDup_setitem.
Qed.

Lemma values_for_entities (results : list RecognizerResult) d :
  Forall (fun kv => (0 < snd kv)%Z) d ->
  Forall (fun kv => (0 < snd kv)%Z) (fold_left for_entity results d).
Proof.
  revert d. induction results as [|e results IH]; intros d Hd; simpl; [done|].
  apply IH. apply values_setitem; [done|].
  pose proof (get_nonneg d (entity_type e) Hd). lia.
Qed.

End DictFacts.

(** ** Lists *)

Lemma lookup_map {A B} (f : A -> B) (l : list A) (i : nat) :
  map f l !! i = f <$> (l !! i).
Proof.
  revert i. induction l as [|x l IH]; intros [|i]; simpl; auto.
Qed.

Lemma lookup_In {A} (l : list A) (i : nat) (x : A) : l !! i = Some x -> In x l.
Proof.
  revert i. induction l as [|y l IH]; intros [|i]; simpl; try done.
  - intros [= ->]. by left.
  - intros H. right. by apply (IH i).
Qed.

(** ** The claims on the loops *)

Section Claims.

Variable analyze : string -> string -> PyExc + list RecognizerResult.
Variable anonymize :
  string -> list RecognizerResult -> Operators -> PyExc + EngineResult.
Variable title : string -> string.

(** A run that returns, seen from its result: the records read, the rows
    written and what holds of every data cell. *)
Lemma run_returned input calls csv report calls' :
  deidentify_data analyze anonymize title input calls = Returned (csv, report) calls' ->
  exists header rows,
    PyCsv.reader input = (header :: rows, None) /\
    csv = PyCsv.writerows (header :: map (map (masked analyze anonymize)) rows) /\
    report = build_report title
               (fold_left for_entity
                          (flat_map (flat_map (detected analyze)) rows)
                          PyDict.empty) /\
    calls' = calls ++ flat_map (flat_map (cell_calls analyze)) rows /\
    Forall (Forall (fun cell => cell_raises analyze anonymize cell = None)) rows.
Proof.
  intros (lines & total & Hg & -> & ->)%deidentify_data_returned.
  apply deidentify_grid_returned in Hg
    as (header & rows & Hr & -> & -> & -> & Hall).
  by exists header, rows.
Qed.

Lemma In_cell_calls (rows : list (list string)) (row : list string)
      (cell : string) (c : Call) :
  In row rows -> In cell row -> In c (cell_calls analyze cell) ->
  In c (flat_map (flat_map (cell_calls analyze)) rows).
Proof.
  intros Hrow Hcell Hc. apply in_flat_map. exists row. split; [done|].
  apply in_flat_map. by exists cell.
Qed.

(** C1: in a run that returns, a data cell that is not blank is handed to
    the detector as it is; when the detector finds nothing the cell is in
    the output unchanged; when it finds entities the anonymizer is called
    on the cell's own text with all of them and the one policy, DEFAULT
    to replace by XXXXXX, and its text is the output cell. *)
Theorem C1_cell_masking input csv report calls' :
  deidentify_data analyze anonymize title input [] = Returned (csv, report) calls' ->
  exists header rows lines,
    PyCsv.reader input = (header :: rows, None) /\
    csv = PyCsv.writerows (header :: lines) /\
    forall j row i cell,
      rows !! j = Some row -> row !! i = Some cell -> blank cell = false ->
      exists results out_row,
        analyze cell "en" = inr results /\
        In (Analyze cell "en") calls' /\
        lines !! j = Some out_row /\
        match results with
        | [] => out_row !! i = Some cell
        | _ :: _ =>
            let policy :=
              [("DEFAULT", mkOperatorConfig "replace" [("new_value", "XXXXXX")])] in
            exists r,
              anonymize cell results policy = inr r /\
              In (Anonymize cell results policy) calls' /\
              out_row !! i = Some (text r)
        end.
Proof.
  intros (header & rows & Hr & -> & _ & -> & Hall)%run_returned.
  exists header, rows, (map (map (masked analyze anonymize)) rows).
  split_and!; [done..|].
  intros j row i cell Hrow Hcell Hb.
  pose proof (lookup_In _ _ _ Hrow) as Hrow'.
  pose proof (lookup_In _ _ _ Hcell) as Hcell'.
  assert (cell_raises analyze anonymize cell = None) as Hok.
  { rewrite List.Forall_forall in Hall. specialize (Hall row Hrow').
    rewrite List.Forall_forall in Hall. by apply Hall. }
  destruct (cell_scanned analyze anonymize cell Hb Hok)
    as (results & Ha & Hd & Hres).
  exists results, (map (masked analyze anonymize) row).
  split_and!.
  - done.
  - simpl. eapply In_cell_calls; [done..|].
    destruct results; [destruct Hres as [_ ->]|destruct Hres as (? & _ & _ & ->)];
      by left.
  - by rewrite lookup_map, Hrow.
  - destruct results as [|r0 rs].
    + destruct Hres as [Hm _]. rewrite lookup_map, Hcell. simpl. by rewrite Hm.
    + destruct Hres as (r & Hr' & Hm & Hc). exists r. split_and!.
      * done.
      * simpl. eapply In_cell_calls; [done..|]. rewrite Hc. right. by left.
      * rewrite lookup_map, Hcell. simpl. by rewrite Hm.
Qed.

(** C3, as the code has it: for a cell that is not blank, on which the
    detector returns N entities, a step of the cell loop that returns
    adds exactly N to the sum of the counts, and to the count of every
    type the number of entities of that type, a type not counted before
    starting from nothing; with N = 0 the row is left as it is, so the
    cell is unchanged; with N > 0 the cell becomes the text the
    anonymizer returns.  An output cell that differs from the input cell
    therefore means N > 0. *)
Theorem C3_count_and_mask drow total i cell calls results drow' total' calls' :
  blank cell = false ->
  drow !! i = Some cell ->
  analyze cell "en" = inr results ->
  for_cell analyze anonymize (drow, total) (i, cell) calls
  = Returned (drow', total') calls' ->
  PyDict.total total' = (PyDict.total total + Z.of_nat (length results))%Z /\
  (forall key,
      PyDict.get total' key 0 =
      (PyDict.get total key 0 +
       Z.of_nat (length (List.filter
                           (fun e => String.eqb (entity_type e) key) results)))%Z) /\
  (forall e, PyDict.contains total (entity_type e) = false ->
             PyDict.get (for_entity total e) (entity_type e) 0 = 1%Z) /\
  (length results = 0 -> drow' = drow /\ drow' !! i = Some cell) /\
  (0 < length results ->
   exists r, anonymize cell results operators = inr r /\
             drow' !! i = Some (text r)) /\
  (drow' !! i <> Some cell -> 0 < length results).
Proof.
  intros Hb Hi Ha. unfold for_cell. fold (blank cell). rewrite Hb.
  unfold bind, call_analyze. rewrite Ha.
  assert (forall e, PyDict.contains total (entity_type e) = false ->
                    PyDict.get (for_entity total e) (entity_type e) 0 = 1%Z)
    as Hfirst.
  { intros e He. rewrite get_for_entity, String.eqb_refl.
    assert (PyDict.get total (entity_type e) 0 = 0%Z) as ->; [|done].
    clear -He. induction total as [|[k v] d IH]; simpl in *; [done|].
    apply orb_false_elim in He as [-> He]. by apply IH. }
  destruct results as [|r0 rs].
  - unfold ret. intros [= <- <- <-]. simpl.
    split_and!; try done; try lia.
  - unfold call_anonymize.
    destruct (anonymize cell (r0 :: rs) operators) as [e|res] eqn:Hm; [done|].
    unfold ret. intros [= <- <- <-].
    assert (<[i:=text res]> drow !! i = Some (text res)) as Hout.
    { apply list_lookup_insert_eq. by eapply lookup_lt_Some. }
    split_and!.
    + apply (total_for_entities (r0 :: rs)).
    + intros key. apply (get_for_entities (r0 :: rs)).
    + done.
    + simpl. lia.
    + intros _. by exists res.
    + intros _. simpl. lia.
Qed.

(** C4: a cell of white space only, the empty cell included, makes the
    step of the cell loop return at once, with the row, the counts and
    the calls as they were; no run ever calls an engine on such a text;
    in a run that returns the cell is in the output as it was in the
    input, not trimmed; and a cell that is not blank is handed to the
    detector as it is, not trimmed either. *)
Theorem C4_blank_passthrough cell :
  PyStr.all_space cell = true ->
  (forall drow total i calls,
      for_cell analyze anonymize (drow, total) (i, cell) calls
      = Returned (drow, total) calls) /\
  (forall input language results policy,
      let calls := calls_of (deidentify_data analyze anonymize title input []) in
      ~ In (Analyze cell language) calls /\
      ~ In (Anonymize cell results policy) calls) /\
  (forall input csv report calls',
      deidentify_data analyze anonymize title input [] = Returned (csv, report) calls' ->
      exists header rows lines,
        PyCsv.reader input = (header :: rows, None) /\
        csv = PyCsv.writerows (header :: lines) /\
        forall j row i,
          rows !! j = Some row -> row !! i = Some cell ->
          exists out_row, lines !! j = Some out_row /\ out_row !! i = Some cell) /\
  (forall other st i calls,
      blank other = false ->
      exists more,
        calls_of (for_cell analyze anonymize st (i, other) calls)
        = calls ++ Analyze other "en" :: more).
Proof.
  intros Hb%blank_all_space. split_and!.
  - intros drow total i calls. unfold for_cell. fold (blank cell). by rewrite Hb.
  - intros input language results policy calls.
    destruct (sound_deidentify_data analyze anonymize title input [])
      as (cs & Hcs & Hwf & _).
    subst calls. rewrite Hcs. simpl. rewrite List.Forall_forall in Hwf.
    split; intros Hin; apply Hwf in Hin; simpl in Hin; destruct Hin; congruence.
  - intros input csv report calls'
           (header & rows & Hr & -> & _ & -> & Hall)%run_returned.
    exists header, rows, (map (map (masked analyze anonymize)) rows).
    split_and!; [done..|]. intros j row i Hrow Hcell.
    exists (map (masked analyze anonymize) row).
    rewrite !lookup_map, Hrow, Hcell. simpl.
    by destruct (cell_blank analyze anonymize cell Hb) as (_ & -> & _).
  - intros other [drow total] i calls Hother. unfold for_cell.
    fold (blank other). rewrite Hother. unfold bind, call_analyze.
    destruct (analyze other "en") as [e|[|r rs]]; [by exists []..|].
    unfold call_anonymize.
    destruct (anonymize other (r :: rs) operators); simpl;
      rewrite <- app_assoc; by eexists.
Qed.

(** C5: an engine call of the run that the engine answers by raising ends
    the run: the run raises that very exception, and so returns neither
    output nor report; and when an engine raises on a data cell that is
    not blank, the run raises and returns nothing. *)
Theorem C5_engine_error_propagates input :
  (forall c e,
      In c (calls_of (deidentify_data analyze anonymize title input [])) ->
      match c with
      | Analyze t l => analyze t l = inl e
      | Anonymize t rs policy => anonymize t rs policy = inl e
      end ->
      exists calls', deidentify_data analyze anonymize title input [] = Raised e calls') /\
  (forall header rows stop row cell e,
      PyCsv.reader input = (header :: rows, stop) ->
      In row rows -> In cell row -> blank cell = false ->
      analyze cell "en" = inl e \/
      (exists results, analyze cell "en" = inr results /\ results <> [] /\
                       anonymize cell results operators = inl e) ->
      exists e' calls',
        deidentify_data analyze anonymize title input [] = Raised e' calls').
Proof.
  split.
  - intros c e Hin Hc.
    destruct (sound_deidentify_data analyze anonymize title input [])
      as (cs & Hcs & _ & Hr).
    rewrite Hcs in Hin. simpl in Hin.
    assert (call_raises analyze anonymize c = Some e) as Hraises.
    { destruct c; simpl; by rewrite Hc. }
    rewrite (Hr c e Hin Hraises). by eexists.
  - intros header rows stop row cell e Hrd Hrow Hcell Hb Hfail.
    destruct (deidentify_data analyze anonymize title input [])
      as [[csv report] calls'|e' calls'] eqn:Hrun; [|by eauto].
    apply run_returned in Hrun as (header' & rows' & Hrd' & _ & _ & _ & Hall).
    rewrite Hrd in Hrd'. injection Hrd' as <- <- ->.
    rewrite List.Forall_forall in Hall. specialize (Hall row Hrow).
    rewrite List.Forall_forall in Hall. specialize (Hall cell Hcell).
    unfold cell_raises in Hall. rewrite Hb in Hall.
    destruct Hfail as [Ha|(results & Ha & Hne & Hm)]; rewrite Ha in Hall;
      [done|].
    destruct results; [done|]. by rewrite Hm in Hall.
Qed.

(** C6: on the empty input [next(reader)] raises [StopIteration]; the
    invocation fails and returns no output and no report. *)
Theorem C6_empty_input calls :
  deidentify_data analyze anonymize title EmptyString calls = Raised StopIteration calls /\
  (forall csv report calls',
      deidentify_data analyze anonymize title EmptyString calls
      <> Returned (csv, report) calls').
Proof. split; [reflexivity | done]. Qed.

(** The counts at the end of a run that returns: the keys are the types
    detected, each once, and every count is positive. *)
Lemma counts_of_rows (found : list RecognizerResult) :
  let total := fold_left for_entity found PyDict.empty in
  List.NoDup (PyDict.keys total) /\
  Forall (fun kv => (0 < snd kv)%Z) total /\
  (forall key, PyDict.contains total key = true <->
               In key (map entity_type found)) /\
  (forall key count, In (key, count) total ->
     count = Z.of_nat (length (List.filter
                                 (fun e => String.eqb (entity_type e) key) found))).
Proof.
  intros total. subst total.
  assert (List.NoDup (PyDict.keys (fold_left for_entity found PyDict.empty)))
    as Hnd by (apply NoDup_for_entities; constructor).
  split_and!.
  - done.
  - apply values_for_entities. constructor.
  - intros key. rewrite contains_keys, keys_for_entities. simpl. tauto.
  - intros key count Hin.
    rewrite <- (Z.add_0_l (Z.of_nat _)).
    change 0%Z with (PyDict.get PyDict.empty key 0) at 1.
    rewrite <- get_for_entities.
    revert Hnd Hin. generalize (fold_left for_entity found PyDict.empty).
    intros d. unfold PyDict.keys.
    induction d as [|[k v] d IH]; simpl; [done|].
    intros [Hnin Hnd]%List.NoDup_cons_iff [[= -> ->]|Hin].
    + by rewrite String.eqb_refl.
    + destruct (String.eqb_spec k key) as [->|Hne]; [|by apply IH].
      destruct Hnin. apply in_map_iff. by exists (key, count).
Qed.

(** C10: in a run that returns, the count map from which the report is
    built holds each key once, every count is a positive integer, and a
    key is in the map exactly when the detector returned an entity of
    that type for a data cell that is not blank; and a step of the cell
    loop never lowers a count. *)
Theorem C10_counts_positive input csv report calls' :
  deidentify_data analyze anonymize title input [] = Returned (csv, report) calls' ->
  exists header rows total,
    PyCsv.reader input = (header :: rows, None) /\
    deidentify_grid analyze anonymize input []
    = Returned (header :: map (map (masked analyze anonymize)) rows, total) calls' /\
    report = build_report title total /\
    List.NoDup (PyDict.keys total) /\
    (forall key count, In (key, count) total -> (0 < count)%Z) /\
    (forall key,
        PyDict.contains total key = true <->
        exists row cell results entity,
          In row rows /\ In cell row /\ blank cell = false /\
          analyze cell "en" = inr results /\
          In entity results /\ entity_type entity = key) /\
    (forall st ic calls st' calls1 key,
        for_cell analyze anonymize st ic calls = Returned st' calls1 ->
        (PyDict.get (snd st) key 0 <= PyDict.get (snd st') key 0)%Z).
Proof.
  intros (lines & total & Hg & -> & ->)%deidentify_data_returned.
  pose proof Hg as Hg'.
  apply deidentify_grid_returned in Hg'
    as (header & rows & Hr & -> & -> & Hcalls & Hall).
  destruct (counts_of_rows (flat_map (flat_map (detected analyze)) rows))
    as (Hnd & Hpos & Hkeys & _).
  eexists header, rows, _. split_and!; [done..| | |].
  - intros key count Hin. rewrite List.Forall_forall in Hpos.
    by apply (Hpos (key, count)).
  - intros key. rewrite Hkeys, in_map_iff. split.
    + intros (entity & Hty & (row & Hrow & (cell & Hcell & Hin)%in_flat_map)%in_flat_map).
      unfold detected in Hin. destruct (blank cell) eqn:Hb; [done|].
      destruct (analyze cell "en") as [e|results] eqn:Ha; [done|].
      by exists row, cell, results, entity.
    + intros (row & cell & results & entity & Hrow & Hcell & Hb & Ha & Hin & Hty).
      exists entity. split; [done|].
      apply in_flat_map. exists row. split; [done|].
      apply in_flat_map. exists cell. split; [done|].
      unfold detected. by rewrite Hb, Ha.
  - intros [drow total] [i cell] calls [drow' total'] calls1 key. simpl.
    unfold for_cell. fold (blank cell). destruct (blank cell).
    { unfold ret. intros [= <- <- <-]. lia. }
    unfold bind, call_analyze. destruct (analyze cell "en") as [e|[|r rs]]; [done|..].
    { unfold ret. intros [= <- <- <-]. lia. }
    unfold call_anonymize.
    destruct (anonymize cell (r :: rs) operators) as [e|res]; [done|].
    unfold ret. intros [= <- <- <-].
    pose proof (get_for_entities (r :: rs) total key) as Hget.
    simpl in Hget. rewrite Hget. lia.
Qed.

End Claims.

(** ** The reader, line by line and character by character *)

Section ReaderFacts.

Import PyCsv.

Lemma feed_chars_app (r : ReaderObj) (s1 s2 : string) :
  feed_chars r (s1 +:+ s2) =
  match feed_chars r s1 with
  | inl e => inl e
  | inr r1 => feed_chars r1 s2
  end.
Proof.
  revert r. induction s1 as [|c s1 IH]; intros r; [done|].
  rewrite append_cons. simpl.
  destruct (parse_process_char r (Some c)); [done | apply IH].
Qed.

(** A text that starts with characters other than line feeds has a first
    line that starts with them. *)
Lemma readlines_prefix (cur : string) (c : ascii) (s : string) :
  no_LF cur = true ->
  exists l ls, readlines ((cur +:+ chr c) +:+ s) = ((cur +:+ chr c) +:+ l) :: ls.
Proof.
  intros Hcur. induction cur as [|d cur IH].
  - rewrite append_nil_l. unfold chr. rewrite append_cons, append_nil_l. simpl.
    destruct (c =? LF)%char.
    + by exists EmptyString, (readlines s).
    + destruct (readlines s) as [|l ls].
      * by exists EmptyString, [].
      * by exists l, ls.
  - simpl in Hcur. apply andb_prop in Hcur as [Hd Hcur].
    destruct (IH Hcur) as (l & ls & Heq).
    rewrite !append_cons. simpl. rewrite Heq.
    apply negb_true_iff in Hd. rewrite Hd. by exists l, ls.
Qed.

Lemma readlines_line (cur s : string) :
  no_LF cur = true ->
  readlines (cur +:+ String LF s) = (cur +:+ nl) :: readlines s.
Proof.
  intros Hcur. induction cur as [|d cur IH].
  - done.
  - simpl in Hcur. apply andb_prop in Hcur as [Hd Hcur].
    rewrite !append_cons. simpl. rewrite (IH Hcur).
    apply negb_true_iff in Hd. by rewrite Hd.
Qed.

Lemma readlines_last (cur : string) :
  no_LF cur = true ->
  readlines cur = if String.eqb cur EmptyString then [] else [cur].
Proof.
  intros Hcur. induction cur as [|d cur IH]; [done|].
  simpl in Hcur. apply andb_prop in Hcur as [Hd Hcur].
  simpl. apply negb_true_iff in Hd. rewrite Hd, (IH Hcur).
  by destruct cur.
Qed.

Lemma no_LF_snoc (cur : string) (c : ascii) :
  no_LF cur = true -> (c =? LF)%char = false -> no_LF (cur +:+ chr c) = true.
Proof.
  intros Hcur Hc. induction cur as [|d cur IH].
  - simpl. by rewrite Hc.
  - simpl in Hcur. apply andb_prop in Hcur as [Hd Hcur].
    rewrite append_cons. simpl. by rewrite Hd, IH.
Qed.

Lemma snoc_not_empty (cur : string) (c : ascii) :
  String.eqb (cur +:+ chr c) EmptyString = false.
Proof. by destruct cur. Qed.

(** Reading line by line is reading character by character: [cur] is
    the part of the current line already fed to the reader. *)
Lemma iter_records_scan (s cur : string) (r0 r : ReaderObj) :
  no_LF cur = true ->
  feed_chars r0 cur = inr r ->
  iter_records r0 (readlines (cur +:+ s))
  = scan_records r (negb (String.eqb cur EmptyString)) s.
Proof.
  revert cur r0 r. induction s as [|c s IH]; intros cur r0 r Hcur Hfeed.
  - rewrite append_nil_r, (readlines_last _ Hcur).
    destruct (String.eqb cur EmptyString) eqn:Hempty.
    + apply String.eqb_eq in Hempty. subst cur. simpl in Hfeed.
      by injection Hfeed as ->.
    + cbn [negb scan_records iter_records]. unfold feed_line. rewrite Hfeed.
      destruct (parse_process_char r None) as [e|r1]; [done|].
      by destruct (state r1).
  - replace (cur +:+ String c s) with ((cur +:+ chr c) +:+ s)
      by (by rewrite append_assoc).
    cbn [scan_records].
    destruct (c =? LF)%char eqn:Hc.
    + apply Ascii.eqb_eq in Hc. subst c.
      rewrite append_assoc. unfold chr at 1. rewrite append_cons, append_nil_l.
      rewrite (readlines_line _ _ Hcur). cbn [iter_records].
      unfold feed_line, nl. rewrite feed_chars_app, Hfeed. simpl.
      destruct (parse_process_char r (Some LF)) as [e|r1]; [done|].
      destruct (parse_process_char r1 None) as [e|r2]; [done|].
      assert (forall r', iter_records r' (readlines s) = scan_records r' false s)
        as IH0 by (intros r'; by apply (IH EmptyString r' r')).
      destruct (state r2); try by apply IH0.
      by rewrite IH0.
    + assert (feed_chars r0 (cur +:+ chr c) = parse_process_char r (Some c))
        as Hfeed'.
      { rewrite feed_chars_app, Hfeed. simpl.
        by destruct (parse_process_char r (Some c)). }
      destruct (parse_process_char r (Some c)) as [e|r1] eqn:Hp.
      * destruct (readlines_prefix cur c s Hcur) as (l & ls & ->).
        cbn [iter_records]. unfold feed_line.
        by rewrite feed_chars_app, Hfeed'.
      * rewrite (IH _ r0 r1 (no_LF_snoc _ _ Hcur Hc) Hfeed').
        by rewrite snoc_not_empty.
Qed.

Lemma reader_scan (text : string) :
  reader text = scan_records parse_reset false text.
Proof. apply (iter_records_scan text EmptyString parse_reset parse_reset); done. Qed.

End ReaderFacts.

(** ** What the writer writes, the reader reads back *)

Section RoundTrip.

Import PyCsv.

Lemma fits_app_l (s1 s2 : string) : fits (s1 +:+ s2) -> fits s1.
Proof. unfold fits. rewrite length_append. lia. Qed.

Lemma fits_snoc (fld : string) (c : ascii) (d : string) :
  fits (fld +:+ String c d) -> fits ((fld +:+ chr c) +:+ d).
Proof. by rewrite append_assoc. Qed.

Lemma parse_add_char_fits st fs fld c :
  fits (fld +:+ chr c) ->
  parse_add_char (mkReader st fs fld) c = inr (mkReader st fs (fld +:+ chr c)).
Proof.
  unfold fits, parse_add_char. rewrite length_append. simpl. intros H.
  destruct (N.leb_spec field_limit (N.of_nat (String.length fld))); [lia|done].
Qed.

Lemma special_false (c : ascii) :
  special c = false ->
  (c =? delimiter)%char = false /\ (c =? quotechar)%char = false /\
  (c =? LF)%char = false /\ is_newline c = false.
Proof.
  unfold special, is_newline.
  intros [[[H1 H2]%orb_false_elim H3]%orb_false_elim H4]%orb_false_elim.
  by rewrite H1, H2, H3, H4.
Qed.

Lemma wants_quote_true (data : string) : wants_quote true data = true.
Proof. induction data as [|c d IH]; [done | apply IH]. Qed.

Lemma wants_quote_cons (c : ascii) (d : string) :
  wants_quote false (String c d) = special c || wants_quote false d.
Proof. simpl. destruct (special c); [apply wants_quote_true | done]. Qed.

(** A character other than the line feed. *)
Lemma scan_char r r1 mid c s :
  (c =? LF)%char = false ->
  parse_process_char r (Some c) = inr r1 ->
  scan_records r mid (String c s) = scan_records r1 true s.
Proof. intros Hc Hp. simpl. by rewrite Hp, Hc. Qed.

(** The body of a quoted field, up to the closing quote. *)
Lemma scan_quoted_body data fld fs mid s :
  fits (fld +:+ data) ->
  scan_records (mkReader IN_QUOTED_FIELD fs fld) mid
               (copy_data data +:+ String DQUOTE s)
  = scan_records (mkReader QUOTE_IN_QUOTED_FIELD fs (fld +:+ data)) true s.
Proof.
  revert fld mid. induction data as [|c d IH]; intros fld mid Hfit.
  - rewrite append_nil_r. by apply scan_char.
  - pose proof (fits_app_l _ _ (fits_snoc _ _ _ Hfit)) as Hfit1.
    replace (fld +:+ String c d) with ((fld +:+ chr c) +:+ d)
      by (by rewrite append_assoc).
    cbn [copy_data]. destruct (c =? quotechar)%char eqn:Hq.
    + apply Ascii.eqb_eq in Hq. subst c. rewrite !append_cons.
      rewrite (scan_char _ (mkReader QUOTE_IN_QUOTED_FIELD fs fld)); [|done..].
      rewrite (scan_char _ (mkReader IN_QUOTED_FIELD fs (fld +:+ chr quotechar)));
        [|done|].
      * apply IH. by apply fits_snoc.
      * unfold parse_process_char. simpl.
        by rewrite (parse_add_char_fits _ _ _ _ Hfit1).
    + rewrite append_cons.
      assert (parse_process_char (mkReader IN_QUOTED_FIELD fs fld) (Some c)
              = inr (mkReader IN_QUOTED_FIELD fs (fld +:+ chr c))) as Hp.
      { unfold parse_process_char. simpl. rewrite Hq.
        by apply parse_add_char_fits. }
      destruct (c =? LF)%char eqn:Hc.
      * cbn [scan_records]. rewrite Hp, Hc. simpl. apply IH. by apply fits_snoc.
      * rewrite (scan_char _ _ _ _ _ Hc Hp). apply IH. by apply fits_snoc.
Qed.

Lemma copy_data_plain (data : string) :
  wants_quote false data = false -> copy_data data = data.
Proof.
  induction data as [|c d IH]; [done|]. rewrite wants_quote_cons.
  intros [Hc Hd]%orb_false_elim. apply special_false in Hc as (_ & Hq & _).
  simpl. by rewrite Hq, IH.
Qed.

(** The rest of a field that is not quoted. *)
Lemma scan_plain_body data fld fs mid s :
  wants_quote false data = false ->
  fits (fld +:+ data) ->
  exists mid',
    scan_records (mkReader IN_FIELD fs fld) mid (data +:+ s)
    = scan_records (mkReader IN_FIELD fs (fld +:+ data)) mid' s.
Proof.
  revert fld mid. induction data as [|c d IH]; intros fld mid Hplain Hfit.
  - exists mid. by rewrite append_nil_r.
  - rewrite wants_quote_cons in Hplain.
    apply orb_false_elim in Hplain as [Hc Hd].
    apply special_false in Hc as (Hdel & Hq & Hlf & Hnl).
    pose proof (fits_app_l _ _ (fits_snoc _ _ _ Hfit)) as Hfit1.
    destruct (IH (fld +:+ chr c) true Hd (fits_snoc _ _ _ Hfit)) as [mid' IH'].
    exists mid'. rewrite append_cons.
    rewrite (scan_char _ (mkReader IN_FIELD fs (fld +:+ chr c))); [|done|].
    + by rewrite IH', append_assoc.
    + unfold parse_process_char. simpl. rewrite Hnl, Hdel.
      by apply parse_add_char_fits.
Qed.

(** A whole field, as the writer renders it. *)
Lemma scan_field st quoted data fs mid s :
  at_field_start st ->
  (quoted = true \/ wants_quote false data = false) ->
  fits data ->
  exists mid',
    scan_records (mkReader st fs EmptyString) mid (render quoted data +:+ s)
    = scan_records (mkReader (after_field st quoted data) fs data) mid' s.
Proof.
  intros Hst Hq Hfit. unfold render, after_field. destruct quoted.
  - exists true. unfold chr. rewrite !append_assoc, append_cons, append_nil_l.
    rewrite (scan_char _ (mkReader IN_QUOTED_FIELD fs EmptyString)); [|done|].
    + rewrite append_cons, append_nil_l. by apply scan_quoted_body.
    + by destruct Hst as [-> | ->].
  - destruct Hq as [|Hplain]; [done|].
    rewrite append_nil_l, append_nil_r, (copy_data_plain _ Hplain).
    destruct data as [|c d]; [by exists mid|].
    rewrite wants_quote_cons in Hplain.
    apply orb_false_elim in Hplain as [Hc Hd].
    apply special_false in Hc as (Hdel & Hqc & Hlf & Hnl).
    destruct (scan_plain_body d (chr c) fs true s Hd Hfit) as [mid' Hbody].
    exists mid'. rewrite append_cons.
    rewrite (scan_char _ (mkReader IN_FIELD fs (chr c))); [done|done|].
    destruct Hst as [-> | ->]; unfold parse_process_char, start_field; simpl;
      by rewrite Hnl, Hqc, Hdel.
Qed.

(** The delimiter after a field. *)
Lemma scan_delimiter st fs data mid s :
  st <> IN_QUOTED_FIELD -> st <> EAT_CRNL ->
  scan_records (mkReader st fs data) mid (String delimiter s)
  = scan_records (mkReader START_FIELD (fs ++ [data]) EmptyString) true s.
Proof.
  intros H1 H2. apply scan_char; [done|]. by destruct st.
Qed.

(** A line ending after the last field: the record is complete. *)
Lemma scan_line_ending t st fs data mid s :
  line_ending t ->
  st = START_FIELD \/ st = IN_FIELD \/ st = QUOTE_IN_QUOTED_FIELD ->
  scan_records (mkReader st fs data) mid (t +:+ s)
  = let '(recs, stop) := scan_records parse_reset false s in
    ((fs ++ [data]) :: recs, stop).
Proof.
  intros [-> | ->] Hst.
  - unfold nl, chr. rewrite append_cons, append_nil_l.
    by destruct Hst as [-> | [-> | ->]].
  - unfold crlf. rewrite !append_cons, append_nil_l.
    rewrite (scan_char _ (mkReader EAT_CRNL (fs ++ [data]) EmptyString));
      [done | done |].
    by destruct Hst as [-> | [-> | ->]].
Qed.

(** A line ending alone: a record without fields. *)
Lemma scan_empty_record t mid s :
  line_ending t ->
  scan_records parse_reset mid (t +:+ s)
  = let '(recs, stop) := scan_records parse_reset false s in ([] :: recs, stop).
Proof. by intros [-> | ->]. Qed.

Lemma wants_quote_cases (data : string) :
  wants_quote false data = true \/ wants_quote false data = false.
Proof. destruct (wants_quote false data); auto. Qed.

(** A record from one of its fields on. *)
Lemma scan_fields (rest : list string) :
  forall st quoted data fs mid t s,
    at_field_start st ->
    (quoted = true \/ wants_quote false data = false) ->
    fits data -> Forall fits rest ->
    (after_field st quoted data = START_RECORD -> rest <> []) ->
    line_ending t ->
    scan_records (mkReader st fs EmptyString) mid
                 (render quoted data +:+ more_fields rest +:+ t +:+ s)
    = let '(recs, stop) := scan_records parse_reset false s in
      ((fs ++ data :: rest) :: recs, stop).
Proof.
  induction rest as [|h rest IH];
    intros st quoted data fs mid t s Hst Hq Hfit Hfits Hne Ht.
  - cbn [more_fields]. rewrite append_nil_l.
    destruct (scan_field st quoted data fs mid (t +:+ s) Hst Hq Hfit)
      as [mid' ->].
    apply scan_line_ending; [done|].
    unfold after_field in *. destruct quoted; [auto|].
    destruct data; [|auto]. destruct Hst as [-> | ->]; [|auto].
    by destruct Hne.
  - apply Forall_cons in Hfits as [Hh Hrest].
    cbn [more_fields]. rewrite !append_assoc.
    destruct (scan_field st quoted data fs mid
                (chr delimiter +:+
                 render (wants_quote false h) h +:+
                 more_fields rest +:+ t +:+ s) Hst Hq Hfit)
      as [mid' ->].
    unfold chr. rewrite append_cons, append_nil_l.
    rewrite scan_delimiter.
    + rewrite (IH _ _ _ _ _ t); [|by right|..|done|done| |done].
      * by rewrite <- app_assoc.
      * destruct (wants_quote_cases h); auto.
      * unfold after_field. destruct (wants_quote false h); [done|].
        by destruct h.
    + unfold after_field. destruct quoted; [done|].
      destruct data; [|done]. by destruct Hst as [-> | ->].
    + unfold after_field. destruct quoted; [done|].
      destruct data; [|done]. by destruct Hst as [-> | ->].
Qed.

(** *** The writer, in closed form *)

Lemma fold_join (rest : list string) (w : WriterObj) :
  0 < num_fields w ->
  fold_left (fun w fld => join_append w (Some fld) false) rest w
  = {| rec := rec w +:+ more_fields rest;
       num_fields := num_fields w + length rest |}.
Proof.
  revert w. induction rest as [|h rest IH]; intros w Hw.
  - simpl. rewrite append_nil_r, Nat.add_0_r. by destruct w.
  - cbn [fold_left]. rewrite IH; [|simpl; lia].
    unfold join_append. cbn [rec num_fields more_fields length].
    destruct (Nat.ltb_spec 0 (num_fields w)); [|lia].
    f_equal; [|lia]. unfold render. by rewrite !append_assoc.
Qed.

Lemma render_not_empty quoted c d x :
  String.length (render quoted (String c d) +:+ x) <> 0.
Proof.
  unfold render. destruct quoted; [done|]. rewrite append_nil_l. simpl.
  by destruct (c =? quotechar)%char.
Qed.

Lemma writerow_body (row : list string) :
  writerow row = row_body row +:+ lineterminator.
Proof.
  destruct row as [|data rest]; [done|].
  unfold writerow, row_body. cbn [fold_left]. rewrite fold_join; [|simpl; lia].
  cbn [rec num_fields join_append join_reset].
  destruct data as [|c d].
  - destruct rest as [|h rest]; [done|]. done.
  - cbn [forced_quote orb Nat.ltb Nat.leb Nat.add andb].
    change (EmptyString +:+ EmptyString +:+
            (if wants_quote false (String c d) then chr quotechar else EmptyString)
            +:+ copy_data (String c d) +:+
            (if wants_quote false (String c d) then chr quotechar else EmptyString))
      with (render (wants_quote false (String c d)) (String c d)).
    destruct (Nat.eqb_spec
                (String.length (render (wants_quote false (String c d)) (String c d)
                                +:+ more_fields rest)) 0) as [H0|_].
    + by apply render_not_empty in H0.
    + done.
Qed.

(** One record, with either line ending, read. *)
Lemma scan_row (row : list string) (t : string) (mid : bool) (s : string) :
  Forall fits row -> line_ending t ->
  scan_records parse_reset mid (row_body row +:+ t +:+ s)
  = let '(recs, stop) := scan_records parse_reset false s in (row :: recs, stop).
Proof.
  intros Hfits Ht. destruct row as [|data rest].
  - unfold row_body. rewrite append_nil_l. by apply scan_empty_record.
  - apply Forall_cons in Hfits as [Hfit Hfits].
    unfold row_body. rewrite !append_assoc.
    apply (scan_fields rest START_RECORD _ data []); [by left| |done..| |done].
    + destruct (wants_quote_cases data) as [-> | ->]; [left|right]; [|done].
      apply orb_true_r.
    + unfold after_field. destruct data; [|by destruct (_ || _)].
      destruct rest; [done|done].
Qed.

(** *** Every field read is within the limit *)

Lemma parse_add_char_inv r c r' :
  parse_add_char r c = inr r' -> reader_fits r ->
  reader_fits r' /\ state r' = state r.
Proof.
  unfold parse_add_char, reader_fits, fits.
  destruct (N.leb_spec field_limit (N.of_nat (String.length (field r))));
    [done|].
  intros [= <-] [Hfs Hf]. simpl. rewrite length_append. simpl.
  split_and!; [done | lia | done].
Qed.

Lemma parse_save_field_inv r : reader_fits r -> reader_fits (parse_save_field r).
Proof.
  intros [Hfs Hf]. split; simpl; [|unfold fits; simpl; unfold field_limit; lia].
  apply Forall_app. split; [done | by constructor].
Qed.

Lemma set_state_inv st r : reader_fits r -> reader_fits (set_state st r).
Proof. done. Qed.

(** The invariant after any mix of [set_state] and [parse_save_field]. *)
Ltac fits_saved Hr :=
  destruct Hr as [? ?]; unfold reader_fits; simpl; split;
  [ first [ assumption
          | apply Forall_app; split; [assumption | by constructor] ]
  | first [ assumption | by (unfold fits; simpl; unfold field_limit; lia) ] ].

Lemma parse_process_char_inv r c r' :
  parse_process_char r c = inr r' -> reader_fits r -> reader_fits r'.
Proof.
  intros Hp Hr. unfold parse_process_char, start_field in Hp.
  destruct (state r); destruct c as [ch|];
    repeat match type of Hp with
           | context [if ?b then _ else _] => destruct b
           end;
    try discriminate Hp;
    try (injection Hp as <-; by fits_saved Hr);
    try (apply parse_add_char_inv in Hp as [Hp _]; [done | by fits_saved Hr]).
  all: destruct (parse_add_char _ ch) as [e|r1] eqn:Ha; [done|];
    injection Hp as <-;
    apply parse_add_char_inv in Ha as [Ha _]; [done | by fits_saved Hr].
Qed.

Lemma feed_chars_inv line r r' :
  feed_chars r line = inr r' -> reader_fits r -> reader_fits r'.
Proof.
  revert r. induction line as [|c line IH]; intros r; simpl.
  - by intros [= <-].
  - destruct (parse_process_char r (Some c)) as [e|r1] eqn:Hp; [done|].
    intros H Hr. apply (IH r1 H). by apply (parse_process_char_inv r (Some c)).
Qed.

Lemma feed_line_inv line r r' :
  feed_line r line = inr r' -> reader_fits r -> reader_fits r'.
Proof.
  unfold feed_line. destruct (feed_chars r line) as [e|r1] eqn:Hf; [done|].
  intros Hp Hr. apply (parse_process_char_inv r1 None r' Hp).
  by apply (feed_chars_inv line r).
Qed.

Lemma parse_reset_fits : reader_fits parse_reset.
Proof. split; [constructor | done]. Qed.

Lemma iter_records_fits lines r rows stop :
  iter_records r lines = (rows, stop) -> reader_fits r ->
  Forall (Forall fits) rows.
Proof.
  revert r rows stop. induction lines as [|line lines IH]; intros r rows stop.
  - cbn [iter_records]. intros H Hr.
    destruct (_ || _); injection H as <- <-; [|constructor].
    constructor; [|constructor].
    by destruct (parse_save_field_inv r Hr).
  - cbn [iter_records].
    destruct (feed_line r line) as [e|r1] eqn:Hf.
    { intros [= <- <-] _. constructor. }
    intros H Hr. pose proof (feed_line_inv _ _ _ Hf Hr) as Hr1.
    destruct (state r1); try by apply (IH r1 rows stop).
    destruct (iter_records parse_reset lines) as [recs stop'] eqn:Hrest.
    injection H as <- <-. constructor; [by destruct Hr1|].
    apply (IH parse_reset recs stop' Hrest parse_reset_fits).
Qed.

(** Every field of every record that the reader yields is within the
    limit. *)
Lemma reader_rows_fit text rows stop :
  reader text = (rows, stop) -> Forall (Forall fits) rows.
Proof.
  intros H. apply (iter_records_fits _ _ _ _ H parse_reset_fits).
Qed.

(** Records with either line ending, read: the same records, and the
    reader stops without error. *)
Lemma reader_lines_text (l : list (list string * string)) :
  Forall (fun rt => Forall fits (fst rt) /\ line_ending (snd rt)) l ->
  reader (lines_text l) = (map fst l, None).
Proof.
  rewrite reader_scan.
  induction 1 as [|[row t] l [Hrow Ht] Hl IH]; [done|].
  cbn [lines_text map fst]. by rewrite (scan_row row t false _ Hrow Ht), IH.
Qed.

(** The first record of a written text is the first record written. *)
Lemma reader_writerow (row : list string) (s : string) :
  Forall fits row ->
  reader (writerow row +:+ s)
  = let '(recs, stop) := reader s in (row :: recs, stop).
Proof.
  intros Hrow. rewrite !reader_scan, writerow_body, append_assoc.
  apply scan_row; [done | by right].
Qed.

(** Rows written, then read: the same rows, and the reader stops
    without error. *)
Lemma reader_writerows (rows : list (list string)) :
  Forall (Forall fits) rows -> reader (writerows rows) = (rows, None).
Proof.
  induction 1 as [|row rows Hrow Hrows IH]; [done|].
  cbn [writerows]. rewrite (reader_writerow _ _ Hrow). by rewrite IH.
Qed.

(** What is written is the records, each with the line terminator. *)
Lemma writerows_lines_text (rows : list (list string)) :
  writerows rows = lines_text (map (fun row => (row, lineterminator)) rows).
Proof.
  induction rows as [|row rows IH]; [done|].
  cbn [writerows map lines_text]. by rewrite writerow_body, IH, append_assoc.
Qed.

End RoundTrip.

(** ** The claims on the text: shape, report, line endings, second run *)

Section TextClaims.

Variable analyze : string -> string -> PyExc + list RecognizerResult.
Variable anonymize :
  string -> list RecognizerResult -> Operators -> PyExc + EngineResult.
Variable title : string -> string.

Lemma In_calls_rows (rows : list (list string)) (c : Call) :
  In c (flat_map (flat_map (cell_calls analyze)) rows) ->
  exists row cell, In row rows /\ In cell row /\ In c (cell_calls analyze cell).
Proof.
  intros (row & Hrow & (cell & Hcell & Hc)%in_flat_map)%in_flat_map.
  by exists row, cell.
Qed.

Lemma cell_calls_text (cell : string) (c : Call) :
  In c (cell_calls analyze cell) ->
  match c with
  | Analyze t _ => t = cell
  | Anonymize t _ _ => t = cell
  end.
Proof.
  unfold cell_calls. destruct (blank cell); [done|].
  intros [<-|Hin]; [done|].
  destruct (analyze cell "en") as [e|[|r rs]]; try done.
  by destruct Hin as [<-|[]].
Qed.

(** C2: in a run that returns, the rows written are as many as the
    records read, each with as many cells as its record; the first row
    written is the header record as read, so the output text starts with
    the header as the writer writes it, and reading the output gives the
    header back as first record; the header is not scanned: every call
    to an engine is on a cell of a data row. *)
Theorem C2_shape_and_header input csv report calls' :
  deidentify_data analyze anonymize title input [] = Returned (csv, report) calls' ->
  exists header rows lines,
    PyCsv.reader input = (header :: rows, None) /\
    csv = PyCsv.writerows (header :: lines) /\
    length (header :: lines) = length (header :: rows) /\
    Forall2 (fun row out_row => length out_row = length row) rows lines /\
    csv = PyCsv.writerow header +:+ PyCsv.writerows lines /\
    (exists recs stop, PyCsv.reader csv = (header :: recs, stop)) /\
    (forall c, In c calls' ->
               exists row, In row rows /\
                           match c with
                           | Analyze t _ => In t row
                           | Anonymize t _ _ => In t row
                           end).
Proof.
  intros (header & rows & Hr & -> & _ & -> & Hall)%run_returned.
  exists header, rows, (map (map (masked analyze anonymize)) rows).
  split_and!; [done | done | | | done | |].
  - simpl. by rewrite length_map.
  - clear. induction rows as [|row rows IH]; simpl; constructor; [|done].
    by rewrite length_map.
  - cbn [PyCsv.writerows].
    pose proof (reader_rows_fit _ _ _ Hr) as Hfit.
    apply Forall_cons in Hfit as [Hheader _].
    rewrite (reader_writerow _ _ Hheader).
    destruct (PyCsv.reader (PyCsv.writerows _)) as [recs stop].
    by exists recs, stop.
  - intros c (row & cell & Hrow & Hcell & Hc%cell_calls_text)%In_calls_rows.
    exists row. split; [done|]. destruct c; by subst.
Qed.

Lemma fold_left_append {A} (f : A -> string) (l : list A) (init : string) :
  fold_left (fun acc x => acc +:+ f x) l init
  = init +:+ fold_right String.append EmptyString (map f l).
Proof.
  revert init. induction l as [|x l IH]; intros init; simpl.
  - by rewrite append_nil_r.
  - by rewrite IH, append_assoc.
Qed.

Lemma report_line_item (item : string * Z) :
  report_line title item =
  "Total " +:+ title (PyStr.replace "_" " " (fst item))
  +:+ " found: " +:+ PyStr.str_of_int (snd item) +:+ nl.
Proof. by destruct item. Qed.

(** C7, as the code has it: the report is the two header lines, then for
    an empty count map the one line that no PII was found, and otherwise
    one line per item of the map, in the order of the map and nothing
    else, which reads Total, the label, found, a colon and the count; the
    label is what [str.title()] makes of the entity type with its
    underscores turned into spaces, whatever the entity type, so Email
    Address for EMAIL_ADDRESS; in a run that returns, the map holds each
    entity type once. *)
Theorem C7_report_text :
  (forall total,
      build_report title total =
      "Summary Report" +:+ nl +:+ "--------------" +:+ nl +:+
      match total with
      | [] => "No PII found in the provided data." +:+ nl
      | _ :: _ =>
          fold_right String.append EmptyString
            (map (fun item : string * Z =>
                    "Total " +:+ title (PyStr.replace "_" " " (fst item))
                    +:+ " found: " +:+ PyStr.str_of_int (snd item) +:+ nl)
                 total)
      end) /\
  (title "EMAIL ADDRESS" = "Email Address" ->
   build_report title [("EMAIL_ADDRESS", 1%Z)] =
   "Summary Report" +:+ nl +:+ "--------------" +:+ nl +:+
   "Total Email Address found: 1" +:+ nl) /\
  (forall input csv report calls',
      deidentify_data analyze anonymize title input [] = Returned (csv, report) calls' ->
      exists total, report = build_report title total /\
                    List.NoDup (PyDict.keys total)).
Proof.
  split_and!.
  - intros [|item total]; [done|]. unfold build_report.
    rewrite fold_left_append, !append_assoc.
    by rewrite (map_ext _ _ report_line_item).
  - intros Htitle. unfold build_report, report_line. cbn [fold_left].
    change (PyStr.replace "_" " " "EMAIL_ADDRESS") with "EMAIL ADDRESS".
    rewrite Htitle. reflexivity.
  - intros input csv report calls'
           (header & rows & _ & _ & -> & _)%run_returned.
    eexists. split; [done|]. apply NoDup_for_entities. constructor.
Qed.

(** A run on the empty grid of data rows. *)
Lemma header_only input header calls :
  PyCsv.reader input = ([header], None) ->
  deidentify_grid analyze anonymize input calls
  = Returned ([header], PyDict.empty) calls /\
  deidentify_data analyze anonymize title input calls
  = Returned (PyCsv.writerow header, no_pii_report) calls.
Proof.
  intros Hr. unfold deidentify_data, bind, deidentify_grid. rewrite Hr.
  cbn [for_rows]. unfold ret. cbn [PyCsv.writerows].
  by rewrite append_nil_r.
Qed.

(** C8, as the code has it: for an input of a header only, the output is
    the header as the writer writes it, with the line terminator CR LF,
    the count map is empty and the report says that no PII was found; so
    the header line that ends with a line feed comes out ending with
    CR LF, and only an input that ends its lines with CR LF already comes
    out as it went in.  The writer ends every record with CR LF and
    quotes as CSV does; the reader takes a line feed or CR LF for the end
    of a record. *)
Theorem C8_header_only :
  (forall input header calls,
      PyCsv.reader input = ([header], None) ->
      deidentify_grid analyze anonymize input calls
      = Returned ([header], PyDict.empty) calls /\
      deidentify_data analyze anonymize title input calls
      = Returned (PyCsv.row_body header +:+ crlf, no_pii_report) calls) /\
  (forall calls,
      deidentify_data analyze anonymize title ("name,email" +:+ nl) calls
      = Returned ("name,email" +:+ crlf, no_pii_report) calls) /\
  (forall calls,
      deidentify_data analyze anonymize title ("name,email" +:+ crlf) calls
      = Returned ("name,email" +:+ crlf, no_pii_report) calls) /\
  (forall rows,
      PyCsv.writerows rows
      = PyCsv.lines_text (map (fun row => (row, crlf)) rows)) /\
  PyCsv.writerow ["a,b"; "6" +:+ chr DQUOTE; "x y"; EmptyString]
  = chr DQUOTE +:+ "a,b" +:+ chr DQUOTE +:+ ","
    +:+ chr DQUOTE +:+ "6" +:+ chr DQUOTE +:+ chr DQUOTE +:+ chr DQUOTE
    +:+ ",x y," +:+ crlf /\
  (forall l,
      Forall (fun rt => Forall PyCsv.fits (fst rt) /\
                        (snd rt = nl \/ snd rt = crlf)) l ->
      PyCsv.reader (PyCsv.lines_text l) = (map fst l, None)).
Proof.
  split_and!.
  - intros input header calls Hr.
    destruct (header_only input header calls Hr) as [Hg Hd].
    by rewrite <- writerow_body.
  - intros calls. by apply (header_only _ ["name"; "email"]).
  - intros calls. by apply (header_only _ ["name"; "email"]).
  - apply writerows_lines_text.
  - reflexivity.
  - apply reader_lines_text.
Qed.

Lemma deidentify_data_reader input input' :
  PyCsv.reader input = PyCsv.reader input' ->
  deidentify_data analyze anonymize title input = deidentify_data analyze anonymize title input'.
Proof. intros H. unfold deidentify_data, deidentify_grid. by rewrite H. Qed.

Lemma In_enumerate_from {A} (l : list A) (k i : nat) (x : A) :
  In (i, x) (enumerate_from k l) -> In x l.
Proof.
  revert k. induction l as [|y l IH]; intros k; simpl; [done|].
  intros [[= _ ->]|Hin]; [by left | right; by apply (IH (S k))].
Qed.

(** Cells in which there is nothing to detect leave the row and the counts
    as they are. *)
Lemma for_cells_clean (cells : list (nat * string)) st calls :
  (forall i cell, In (i, cell) cells ->
                  blank cell = false -> analyze cell "en" = inr []) ->
  exists calls', for_cells analyze anonymize cells st calls = Returned st calls'.
Proof.
  revert calls. induction cells as [|[i cell] cells IH]; intros calls Hclean.
  - by exists calls.
  - cbn [for_cells]. unfold bind at 1.
    assert (exists calls1, for_cell analyze anonymize st (i, cell) calls
                           = Returned st calls1) as [calls1 ->].
    { destruct st as [drow total]. unfold for_cell. fold (blank cell).
      destruct (blank cell) eqn:Hb; [by exists calls|].
      unfold bind, call_analyze. rewrite (Hclean i cell); [|by left|done].
      by eexists. }
    apply IH. intros j c Hin. apply (Hclean j c). by right.
Qed.

Lemma for_rows_clean (rows : list (list string)) lines total calls :
  (forall row cell, In row rows -> In cell row ->
                    blank cell = false -> analyze cell "en" = inr []) ->
  exists calls',
    for_rows analyze anonymize rows None (lines, total) calls
    = Returned (lines ++ rows, total) calls'.
Proof.
  revert lines calls. induction rows as [|row rows IH]; intros lines calls Hclean.
  - exists calls. simpl. by rewrite app_nil_r.
  - cbn [for_rows]. unfold bind at 1, for_row, bind at 1.
    destruct (for_cells_clean (enumerate row) (row, total) calls) as [calls1 ->].
    { intros i cell Hin%In_enumerate_from. apply (Hclean row cell); [by left|done]. }
    unfold ret. destruct (IH (lines ++ [row]) calls1) as [calls2 Hrest].
    { intros r c Hr. apply (Hclean r c). by right. }
    exists calls2. by rewrite Hrest, <- app_assoc.
Qed.

(** C9: when a run returns and the detector finds nothing in any data
    cell of the input that is not blank, a second run on the output of
    the first returns that same text, with the report that no PII was
    found, which the first run gave too; and a text in the writer's form,
    with a header, fields that the reader accepts and data cells in which
    the detector finds nothing, is a fixed point of the pipeline. *)
Theorem C9_no_pii_idempotence :
  (forall input csv report calls',
      deidentify_data analyze anonymize title input [] = Returned (csv, report) calls' ->
      (forall row cell,
          In row (tail (fst (PyCsv.reader input))) -> In cell row ->
          blank cell = false -> analyze cell "en" = inr []) ->
      deidentify_data analyze anonymize title csv [] = Returned (csv, no_pii_report) calls' /\
      report = no_pii_report) /\
  (forall header rows,
      Forall (Forall PyCsv.fits) (header :: rows) ->
      (forall row cell,
          In row rows -> In cell row ->
          blank cell = false -> analyze cell "en" = inr []) ->
      exists calls',
        deidentify_data analyze anonymize title (PyCsv.writerows (header :: rows)) []
        = Returned (PyCsv.writerows (header :: rows), no_pii_report) calls').
Proof.
  assert (forall header rows,
             Forall (Forall PyCsv.fits) (header :: rows) ->
             (forall row cell,
                 In row rows -> In cell row ->
                 blank cell = false -> analyze cell "en" = inr []) ->
             exists calls',
               deidentify_data analyze anonymize title (PyCsv.writerows (header :: rows)) []
               = Returned (PyCsv.writerows (header :: rows), no_pii_report) calls')
    as Hfixed.
  { intros header rows Hfit Hclean.
    unfold deidentify_data, bind, deidentify_grid.
    rewrite (reader_writerows _ Hfit).
    destruct (for_rows_clean rows [header] PyDict.empty [] Hclean) as [calls' ->].
    by exists calls'. }
  split; [|done].
  intros input csv report calls' Hrun Hclean.
  pose proof Hrun as Hrun'.
  apply run_returned in Hrun' as (header & rows & Hr & Hcsv & Hrep & _ & _).
  rewrite Hr in Hclean. simpl in Hclean.
  assert (forall row cell, In row rows -> In cell row ->
                           detected analyze cell = []) as Hdet.
  { intros row cell Hrow Hcell. unfold detected.
    destruct (blank cell) eqn:Hb; [done|].
    by rewrite (Hclean row cell Hrow Hcell Hb). }
  assert (map (map (masked analyze anonymize)) rows = rows) as Hsame.
  { rewrite <- (map_id rows) at 2. apply map_ext_in. intros row Hrow.
    rewrite <- (map_id row) at 2. apply map_ext_in. intros cell Hcell.
    unfold masked. by rewrite (Hdet row cell Hrow Hcell). }
  rewrite Hsame in Hcsv.
  destruct (Hfixed header rows (reader_rows_fit input _ None Hr) Hclean)
    as [calls2 Hsecond].
  rewrite <- Hcsv in Hsecond.
  rewrite (deidentify_data_reader csv input) in Hsecond
    by (rewrite Hr, Hcsv; apply reader_writerows;
        by apply (reader_rows_fit input _ None)).
  rewrite Hrun in Hsecond. injection Hsecond as -> <-.
  split; [|done].
  rewrite (deidentify_data_reader csv input); [done|].
  rewrite Hr, Hcsv. apply reader_writerows.
  by apply (reader_rows_fit input _ None).
Qed.

End TextClaims.

(** ** The claims at work, and where two of them fail as worded *)

(** The run on [Demo.sample]: the address is masked, the rest is kept. *)
Lemma C1_witness :
  exists header rows lines,
    PyCsv.reader Demo.sample = (header :: rows, None) /\
    "name,email" +:+ crlf +:+ "Alice,XXXXXX" +:+ crlf
    = PyCsv.writerows (header :: lines).
Proof.
  destruct (C1_cell_masking Demo.analyze Demo.anonymize Demo.title Demo.sample
              ("name,email" +:+ crlf +:+ "Alice,XXXXXX" +:+ crlf)
              ("Summary Report" +:+ nl +:+ "--------------" +:+ nl +:+
               "Total Email Address found: 1" +:+ nl)
              [Analyze "Alice" "en"; Analyze "alice@example.com" "en";
               Anonymize "alice@example.com"
                         [mkResult "EMAIL_ADDRESS" 0 17] operators])
    as (header & rows & lines & Hr & Hcsv & _).
  - vm_compute. reflexivity.
  - exists header, rows, lines. split; assumption.
Defined.

Lemma C2_witness :
  exists header rows lines,
    PyCsv.reader Demo.sample = (header :: rows, None) /\
    length (header :: lines) = length (header :: rows).
Proof.
  destruct (C2_shape_and_header Demo.analyze Demo.anonymize Demo.title Demo.sample
              ("name,email" +:+ crlf +:+ "Alice,XXXXXX" +:+ crlf)
              ("Summary Report" +:+ nl +:+ "--------------" +:+ nl +:+
               "Total Email Address found: 1" +:+ nl)
              [Analyze "Alice" "en"; Analyze "alice@example.com" "en";
               Anonymize "alice@example.com"
                         [mkResult "EMAIL_ADDRESS" 0 17] operators])
    as (header & rows & lines & Hr & _ & Hlen & _).
  - vm_compute. reflexivity.
  - exists header, rows, lines. split; assumption.
Defined.

(** One step on a cell that holds an address: one entity, one more in the
    counts, and the cell masked. *)
Lemma C3_witness :
  PyDict.total [("EMAIL_ADDRESS", 1%Z)] = (PyDict.total PyDict.empty + 1)%Z.
Proof.
  destruct (C3_count_and_mask Demo.analyze Demo.anonymize
              ["Alice"; "alice@example.com"] PyDict.empty 1 "alice@example.com" []
              [mkResult "EMAIL_ADDRESS" 0 17]
              ["Alice"; "XXXXXX"] [("EMAIL_ADDRESS", 1%Z)]
              [Analyze "alice@example.com" "en";
               Anonymize "alice@example.com"
                         [mkResult "EMAIL_ADDRESS" 0 17] operators])
    as (Htotal & _).
  - vm_compute. reflexivity.
  - reflexivity.
  - vm_compute. reflexivity.
  - vm_compute. reflexivity.
  - exact Htotal.
Defined.

(** C3 as worded fails: the detector that takes every text for a name
    returns one entity for the cell XXXXXX, and the anonymizer puts XXXXXX
    in its place: N is 1 and the output cell does not differ from the
    input cell. *)
Lemma C3_counterexample :
  let cell := "XXXXXX" in
  let results := [mkResult "PERSON" 0 6] in
  Demo.analyze_all cell "en" = inr results /\
  for_cell Demo.analyze_all Demo.anonymize ([cell], PyDict.empty) (0, cell) []
  = Returned ([cell], [("PERSON", 1%Z)])
             [Analyze cell "en"; Anonymize cell results operators] /\
  ~ ([cell] !! 0 <> Some cell <-> 0 < length results).
Proof.
  split_and!; [reflexivity | reflexivity |].
  intros [_ H]. apply H; [simpl; lia | reflexivity].
Defined.

Lemma C4_witness :
  for_cell Demo.analyze_all Demo.anonymize (["Alice"; "  "], PyDict.empty) (1, "  ") []
  = Returned (["Alice"; "  "], PyDict.empty) [].
Proof.
  destruct (C4_blank_passthrough Demo.analyze_all Demo.anonymize Demo.title "  ")
    as (Hstep & _).
  - reflexivity.
  - apply Hstep.
Defined.

(** The detector that raises: the run on [Demo.sample] raises at the first
    data cell. *)
Lemma C5_witness :
  exists calls',
    deidentify_data Demo.analyze_fails Demo.anonymize Demo.title Demo.sample []
    = Raised (EngineError "ValueError" "no recognizer") calls'.
Proof.
  destruct (C5_engine_error_propagates Demo.analyze_fails Demo.anonymize Demo.title Demo.sample)
    as [Hcall _].
  apply (Hcall (Analyze "Alice" "en")).
  - vm_compute. by left.
  - reflexivity.
Defined.

Lemma C7_witness :
  build_report Demo.title [("EMAIL_ADDRESS", 1%Z)] =
  "Summary Report" +:+ nl +:+ "--------------" +:+ nl +:+
  "Total Email Address found: 1" +:+ nl.
Proof.
  destruct (C7_report_text Demo.analyze Demo.anonymize Demo.title)
    as (_ & Hexample & _).
  apply Hexample. reflexivity.
Defined.

(** C7 as worded fails: the line of the report for one e-mail address is
    not the label, a colon, the count and the word found. *)
Lemma C7_counterexample :
  build_report Demo.title [("EMAIL_ADDRESS", 1%Z)]
  = "Summary Report" +:+ nl +:+ "--------------" +:+ nl +:+
    "Total Email Address found: 1" +:+ nl /\
  worded_report_line Demo.title ("EMAIL_ADDRESS", 1%Z)
  = "Email Address: 1 found" +:+ nl /\
  build_report Demo.title [("EMAIL_ADDRESS", 1%Z)]
  <> "Summary Report" +:+ nl +:+ "--------------" +:+ nl +:+
     worded_report_line Demo.title ("EMAIL_ADDRESS", 1%Z).
Proof.
  split_and!; [reflexivity | reflexivity |].
  intros H. vm_compute in H. discriminate H.
Defined.

Lemma C8_witness :
  deidentify_data Demo.analyze Demo.anonymize Demo.title ("a,b" +:+ nl) []
  = Returned (PyCsv.row_body ["a"; "b"] +:+ crlf, no_pii_report) [].
Proof.
  destruct (C8_header_only Demo.analyze Demo.anonymize Demo.title) as (Hheader & _).
  apply (Hheader ("a,b" +:+ nl) ["a"; "b"] []). reflexivity.
Defined.

(** C8 as worded fails: on the header line that ends with a line feed the
    run returns the header line ending with CR LF, which is not the
    input. *)
Lemma C8_counterexample :
  let input := "name,email" +:+ nl in
  deidentify_data Demo.analyze Demo.anonymize Demo.title input []
  = Returned ("name,email" +:+ crlf, no_pii_report) [] /\
  "name,email" +:+ crlf <> input.
Proof. split; [reflexivity | discriminate]. Defined.

Lemma C9_witness :
  let csv := "name,email,note" +:+ crlf +:+ "Alice,none,  " +:+ crlf in
  deidentify_data Demo.analyze Demo.anonymize Demo.title csv []
  = Returned (csv, no_pii_report) [Analyze "Alice" "en"; Analyze "none" "en"].
Proof.
  intros csv.
  destruct (C9_no_pii_idempotence Demo.analyze Demo.anonymize Demo.title) as [Hrerun _].
  destruct (Hrerun Demo.clean_sample
              csv no_pii_report [Analyze "Alice" "en"; Analyze "none" "en"])
    as [Hsecond _].
  - vm_compute. reflexivity.
  - intros row cell Hrow Hcell _. vm_compute in Hrow.
    destruct Hrow as [<-|[]].
    destruct Hcell as [<-|[<-|[<-|[]]]]; reflexivity.
  - exact Hsecond.
Defined.

Lemma C10_witness :
  exists header rows total,
    PyCsv.reader Demo.sample = (header :: rows, None) /\
    List.NoDup (PyDict.keys total) /\
    forall key count, In (key, count) total -> (0 < count)%Z.
Proof.
  destruct (C10_counts_positive Demo.analyze Demo.anonymize Demo.title Demo.sample
              ("name,email" +:+ crlf +:+ "Alice,XXXXXX" +:+ crlf)
              ("Summary Report" +:+ nl +:+ "--------------" +:+ nl +:+
               "Total Email Address found: 1" +:+ nl)
              [Analyze "Alice" "en"; Analyze "alice@example.com" "en";
               Anonymize "alice@example.com"
                         [mkResult "EMAIL_ADDRESS" 0 17] operators])
    as (header & rows & total & Hr & _ & _ & Hnd & Hpos & _).
  - vm_compute. reflexivity.
  - exists header, rows, total. split_and!; assumption.
Defined.

(** * Further properties of the pipeline *)

(** ** What is scanned, and what is counted *)

Section MoreOnRuns.

Variable analyze : string -> string -> PyExc + list RecognizerResult.
Variable anonymize :
  string -> list RecognizerResult -> Operators -> PyExc + EngineResult.
Variable title : string -> string.

Lemma blank_is_all_space (cell : string) : blank cell = PyStr.all_space cell.
Proof.
  pose proof (blank_all_space cell) as H.
  destruct (blank cell), (PyStr.all_space cell); try done.
  - symmetry. by apply H.
  - by apply H.
Qed.

Lemma flat_map_concat {A B} (f : A -> list B) (ls : list (list A)) :
  flat_map (flat_map f) ls = flat_map f (List.concat ls).
Proof.
  induction ls as [|l ls IH]; [done|]. simpl. by rewrite flat_map_app, IH.
Qed.

Lemma analyzed_app (cs1 cs2 : list Call) :
  analyzed (cs1 ++ cs2) = analyzed cs1 ++ analyzed cs2.
Proof. apply flat_map_app. Qed.

Lemma anonymized_app (cs1 cs2 : list Call) :
  anonymized (cs1 ++ cs2) = anonymized cs1 ++ anonymized cs2.
Proof. apply flat_map_app. Qed.

Lemma analyzed_cells (cells : list string) :
  analyzed (flat_map (cell_calls analyze) cells)
  = List.filter (fun cell => negb (PyStr.all_space cell)) cells.
Proof.
  induction cells as [|cell cells IH]; [done|].
  cbn [flat_map List.filter]. rewrite analyzed_app, IH, <- blank_is_all_space.
  unfold cell_calls. destruct (blank cell); [done|].
  by destruct (analyze cell "en") as [e|[|r rs]].
Qed.

Lemma anonymized_cells (cells : list string) :
  anonymized (flat_map (cell_calls analyze) cells)
  = List.filter (fun cell => negb (PyStr.all_space cell)
                             && match analyze cell "en" with
                                | inr (_ :: _) => true
                                | _ => false
                                end) cells.
Proof.
  induction cells as [|cell cells IH]; [done|].
  cbn [flat_map List.filter]. rewrite anonymized_app, IH, <- blank_is_all_space.
  unfold cell_calls. destruct (blank cell); [done|].
  by destruct (analyze cell "en") as [e|[|r rs]].
Qed.

(** X1: in a run that returns, the detector is called once on each data
    cell that is not of white space only and on nothing else, in the order
    of the rows and, within a row, of the columns; the anonymizer is
    called once on each of those cells for which the detector returned
    entities, in the same order. *)
Theorem X1_scanned_in_order input csv report calls' :
  deidentify_data analyze anonymize title input [] = Returned (csv, report) calls' ->
  exists header rows,
    PyCsv.reader input = (header :: rows, None) /\
    analyzed calls'
    = List.filter (fun cell => negb (PyStr.all_space cell)) (List.concat rows) /\
    anonymized calls'
    = List.filter (fun cell => negb (PyStr.all_space cell)
                               && match analyze cell "en" with
                                  | inr (_ :: _) => true
                                  | _ => false
                                  end) (List.concat rows).
Proof.
  intros (header & rows & Hr & _ & _ & -> & _)%run_returned.
  exists header, rows. rewrite app_nil_l, flat_map_concat.
  split_and!; [done | apply analyzed_cells | apply anonymized_cells].
Qed.

(** X2: in a run that returns, the count that the report is built from is,
    for every entity type, the number of entities of that type that the
    detector returned over the data cells that are not blank, and the
    counts add up to the number of all those entities. *)
Theorem X2_counts_are_detections input csv report calls' :
  deidentify_data analyze anonymize title input [] = Returned (csv, report) calls' ->
  exists header rows total,
    PyCsv.reader input = (header :: rows, None) /\
    report = build_report title total /\
    let found := flat_map (detected analyze) (List.concat rows) in
    (forall key,
        PyDict.get total key 0
        = Z.of_nat (length (List.filter
                              (fun e => String.eqb (entity_type e) key) found))) /\
    PyDict.total total = Z.of_nat (length found).
Proof.
  intros (header & rows & Hr & _ & -> & _ & _)%run_returned.
  exists header, rows. eexists. split_and!; [done | done |].
  cbv zeta. rewrite flat_map_concat. split.
  - intros key. by rewrite get_for_entities.
  - by rewrite total_for_entities.
Qed.

Lemma existsb_eqb_In (key : string) (l : list string) :
  existsb (String.eqb key) l = true <-> In key l.
Proof.
  rewrite existsb_exists. split.
  - by intros (k & Hin & ->%String.eqb_eq).
  - intros Hin. exists key. split; [done | apply String.eqb_refl].
Qed.

Lemma keys_setitem_order (d : PyDict.dict) (key : string) (v : Z) :
  PyDict.keys (PyDict.setitem d key v)
  = if existsb (String.eqb key) (PyDict.keys d)
    then PyDict.keys d else PyDict.keys d ++ [key].
Proof.
  unfold PyDict.keys. induction d as [|[k0 v0] d IH]; [done|].
  cbn [PyDict.setitem map fst existsb].
  rewrite (String.eqb_sym key k0).
  destruct (String.eqb_spec k0 key) as [->|Hne]; [done|].
  cbn [map fst orb]. rewrite IH.
  by destruct (existsb (String.eqb key) (map fst d)).
Qed.

Lemma keys_for_entities_order (results : list RecognizerResult) (d : PyDict.dict) :
  PyDict.keys (fold_left for_entity results d)
  = fold_left (fun seen label =>
                 if existsb (String.eqb label) seen then seen else seen ++ [label])
              (map entity_type results) (PyDict.keys d).
Proof.
  revert d. induction results as [|e results IH]; intros d; [done|].
  cbn [fold_left map]. rewrite IH. unfold for_entity at 1.
  by rewrite keys_setitem_order.
Qed.

(** X3: in a run that returns, the items of the count map, and so the
    lines of the report, come in the order in which the entity types were
    first detected, reading the data cells row by row. *)
Theorem X3_report_order input csv report calls' :
  deidentify_data analyze anonymize title input [] = Returned (csv, report) calls' ->
  exists header rows total,
    PyCsv.reader input = (header :: rows, None) /\
    report = build_report title total /\
    PyDict.keys total
    = first_seen (map entity_type
                      (flat_map (detected analyze) (List.concat rows))).
Proof.
  intros (header & rows & Hr & _ & -> & _ & _)%run_returned.
  exists header, rows. eexists. split_and!; [done | done |].
  by rewrite flat_map_concat, keys_for_entities_order.
Qed.

End MoreOnRuns.

(** ** How a run ends *)

Section HowRunsEnd.

Variable analyze : string -> string -> PyExc + list RecognizerResult.
Variable anonymize :
  string -> list RecognizerResult -> Operators -> PyExc + EngineResult.
Variable title : string -> string.

(** Cells of which none raises: the loop over them returns. *)
Lemma for_cells_ok (row pre : list string) (total : PyDict.dict) (calls : list Call) :
  Forall (fun cell => cell_raises analyze anonymize cell = None) row ->
  for_cells analyze anonymize (enumerate_from (length pre) row)
            (pre ++ row, total) calls
  = Returned (pre ++ map (masked analyze anonymize) row,
              fold_left for_entity (flat_map (detected analyze) row) total)
             (calls ++ flat_map (cell_calls analyze) row).
Proof.
  intros Hrow. revert pre total calls.
  induction Hrow as [|cell row Hcell Hrow IH]; intros pre total calls.
  - simpl. unfold ret. by rewrite !app_nil_r.
  - cbn [for_cells enumerate_from]. unfold bind at 1.
    rewrite for_cell_eq, Hcell.
    replace (pre ++ masked analyze anonymize cell :: row)
      with ((pre ++ [masked analyze anonymize cell]) ++ row)
      by (by rewrite <- app_assoc).
    replace (S (length pre))
      with (length (pre ++ [masked analyze anonymize cell]))
      by (rewrite length_app; simpl; lia).
    rewrite IH. cbn [flat_map map].
    by rewrite <- !app_assoc, fold_left_app.
Qed.

(** Cells of which one raises, and none before it: the loop raises at
    that cell. *)
Lemma for_cells_raise (before : list string) (cell : string) (after pre : list string)
      (e : PyExc) (total : PyDict.dict) (calls : list Call) :
  Forall (fun c => cell_raises analyze anonymize c = None) before ->
  cell_raises analyze anonymize cell = Some e ->
  for_cells analyze anonymize
            (enumerate_from (length pre) (before ++ cell :: after))
            (pre ++ before ++ cell :: after, total) calls
  = Raised e (calls ++ flat_map (cell_calls analyze) before
                    ++ cell_calls analyze cell).
Proof.
  intros Hbefore Hcell. revert pre total calls.
  induction Hbefore as [|c before Hc Hbefore IH]; intros pre total calls.
  - cbn [app for_cells enumerate_from flat_map]. unfold bind at 1.
    by rewrite for_cell_eq, Hcell.
  - cbn [app for_cells enumerate_from flat_map]. unfold bind at 1.
    rewrite for_cell_eq, Hc.
    replace (pre ++ masked analyze anonymize c :: before ++ cell :: after)
      with ((pre ++ [masked analyze anonymize c]) ++ before ++ cell :: after)
      by (by rewrite <- app_assoc).
    replace (S (length pre))
      with (length (pre ++ [masked analyze anonymize c]))
      by (rewrite length_app; simpl; lia).
    rewrite IH. by rewrite <- !app_assoc.
Qed.

Lemma for_row_ok (row : list string) lines total calls :
  Forall (fun cell => cell_raises analyze anonymize cell = None) row ->
  for_row analyze anonymize (lines, total) row calls
  = Returned (lines ++ [map (masked analyze anonymize) row],
              fold_left for_entity (flat_map (detected analyze) row) total)
             (calls ++ flat_map (cell_calls analyze) row).
Proof.
  intros Hrow. unfold for_row, bind, enumerate.
  pose proof (for_cells_ok row [] total calls Hrow) as Hcells.
  simpl in Hcells. by rewrite Hcells.
Qed.

(** Rows of which no cell raises: the loop over them ends as the reader
    does. *)
Lemma for_rows_ok (rows : list (list string)) stop lines total calls :
  Forall (Forall (fun cell => cell_raises analyze anonymize cell = None)) rows ->
  for_rows analyze anonymize rows stop (lines, total) calls
  = let calls' := calls ++ flat_map (flat_map (cell_calls analyze)) rows in
    match stop with
    | None =>
        Returned (lines ++ map (map (masked analyze anonymize)) rows,
                  fold_left for_entity
                            (flat_map (flat_map (detected analyze)) rows) total)
                 calls'
    | Some e => Raised (CsvError e) calls'
    end.
Proof.
  intros Hrows. revert lines total calls.
  induction Hrows as [|row rows Hrow Hrows IH]; intros lines total calls.
  - simpl. rewrite !app_nil_r. by destruct stop.
  - cbn [for_rows]. unfold bind at 1. rewrite (for_row_ok _ _ _ _ Hrow), IH.
    cbn [flat_map map]. rewrite <- !app_assoc, fold_left_app.
    by destruct stop.
Qed.

Lemma for_rows_raise (rows1 : list (list string)) (before : list string)
      (cell : string) (after : list string) (rows2 : list (list string))
      (e : PyExc) stop lines total calls :
  Forall (Forall (fun c => cell_raises analyze anonymize c = None)) rows1 ->
  Forall (fun c => cell_raises analyze anonymize c = None) before ->
  cell_raises analyze anonymize cell = Some e ->
  for_rows analyze anonymize (rows1 ++ (before ++ cell :: after) :: rows2)
           stop (lines, total) calls
  = Raised e (calls ++ flat_map (flat_map (cell_calls analyze)) rows1
                    ++ flat_map (cell_calls analyze) before
                    ++ cell_calls analyze cell).
Proof.
  intros Hrows1 Hbefore Hcell. revert lines total calls.
  induction Hrows1 as [|row rows1 Hrow Hrows1 IH]; intros lines total calls.
  - cbn [app for_rows flat_map]. unfold bind at 1, for_row, bind, enumerate.
    pose proof (for_cells_raise before cell after [] e total calls Hbefore Hcell)
      as Hcells.
    simpl in Hcells. by rewrite Hcells.
  - cbn [app for_rows flat_map]. unfold bind at 1.
    rewrite (for_row_ok _ _ _ _ Hrow), IH. by rewrite <- !app_assoc.
Qed.

(** X4: when a run returns and the text that the anonymizer returns for
    each data cell is within the field size limit of the reader, the
    output is a CSV text that the reader reads without error, as the
    header followed by as many rows as the input had, each with as many
    cells as its input row, whatever delimiters, quotes or line breaks
    the masked texts hold. *)
Theorem X4_output_reparses input csv report calls' :
  deidentify_data analyze anonymize title input [] = Returned (csv, report) calls' ->
  (forall row cell results r,
      In row (tail (fst (PyCsv.reader input))) -> In cell row ->
      analyze cell "en" = inr results ->
      anonymize cell results operators = inr r -> PyCsv.fits (text r)) ->
  exists header rows lines,
    PyCsv.reader input = (header :: rows, None) /\
    PyCsv.reader csv = (header :: lines, None) /\
    Forall2 (fun row out_row => length out_row = length row) rows lines.
Proof.
  intros (header & rows & Hr & -> & _ & _ & Hall)%run_returned Hfits.
  rewrite Hr in Hfits. simpl in Hfits.
  exists header, rows, (map (map (masked analyze anonymize)) rows).
  pose proof (reader_rows_fit _ _ _ Hr) as Hin.
  apply Forall_cons in Hin as [Hheader Hrows].
  split_and!; [done | |].
  - apply reader_writerows. constructor; [done|].
    rewrite List.Forall_forall in Hrows. apply List.Forall_forall.
    intros out (row & <- & Hrow)%in_map_iff. apply List.Forall_forall.
    intros c (cell & <- & Hcell)%in_map_iff.
    pose proof (Hrows row Hrow) as Hrowfit.
    rewrite List.Forall_forall in Hrowfit. specialize (Hrowfit cell Hcell).
    unfold masked, detected. destruct (blank cell); [done|].
    destruct (analyze cell "en") as [e|[|r0 rs]] eqn:Ha; [done..|].
    destruct (anonymize cell (r0 :: rs) operators) as [e|r] eqn:Hm; [done|].
    by apply (Hfits row cell (r0 :: rs) r).
  - clear. induction rows as [|row rows IH]; simpl; constructor; [|done].
    by rewrite length_map.
Qed.

(** X5: a record that the reader refuses makes the run raise the
    [csv.Error] and return nothing: at once and without any call to an
    engine when it is the first record; otherwise after the data rows
    read before it have been scanned, when none of their cells makes an
    engine raise. *)
Theorem X5_malformed_record_fails input e :
  (forall calls,
      PyCsv.reader input = ([], Some e) ->
      deidentify_data analyze anonymize title input calls = Raised (CsvError e) calls) /\
  (forall header rows calls csv report calls',
      PyCsv.reader input = (header :: rows, Some e) ->
      deidentify_data analyze anonymize title input calls <> Returned (csv, report) calls') /\
  (forall header rows calls,
      PyCsv.reader input = (header :: rows, Some e) ->
      Forall (Forall (fun cell => cell_raises analyze anonymize cell = None)) rows ->
      deidentify_data analyze anonymize title input calls
      = Raised (CsvError e)
               (calls ++ flat_map (flat_map (cell_calls analyze)) rows)).
Proof.
  split_and!.
  - intros calls Hr. unfold deidentify_data, bind, deidentify_grid.
    by rewrite Hr.
  - intros header rows calls csv report calls' Hr
           (header' & rows' & Hr' & _)%run_returned.
    by rewrite Hr in Hr'.
  - intros header rows calls Hr Hrows.
    unfold deidentify_data, bind, deidentify_grid. rewrite Hr.
    by rewrite (for_rows_ok rows (Some e) _ _ _ Hrows).
Qed.

(** X6: the run stops at the first data cell, in the order of the rows
    and of the columns, on which an engine raises: it raises that
    exception, whatever follows in the input, and the calls made are those
    of the cells before it and of the cell itself, none after. *)
Theorem X6_fail_fast input header rows1 before cell after rows2 stop e calls :
  PyCsv.reader input
  = (header :: rows1 ++ (before ++ cell :: after) :: rows2, stop) ->
  Forall (Forall (fun c => cell_raises analyze anonymize c = None)) rows1 ->
  Forall (fun c => cell_raises analyze anonymize c = None) before ->
  cell_raises analyze anonymize cell = Some e ->
  deidentify_data analyze anonymize title input calls
  = Raised e (calls ++ flat_map (flat_map (cell_calls analyze)) rows1
                    ++ flat_map (cell_calls analyze) before
                    ++ cell_calls analyze cell).
Proof.
  intros Hr Hrows1 Hbefore Hcell.
  unfold deidentify_data, bind, deidentify_grid. rewrite Hr.
  by rewrite (for_rows_raise rows1 before cell after rows2 e stop _ _ _
                             Hrows1 Hbefore Hcell).
Qed.

End HowRunsEnd.

(** ** Inputs that the reader refuses, and line endings *)

Section ReaderEdges.

Import PyCsv.

Variable analyze : string -> string -> PyExc + list RecognizerResult.
Variable anonymize :
  string -> list RecognizerResult -> Operators -> PyExc + EngineResult.
Variable title : string -> string.

Lemma parse_add_char_overflow st fs fld c :
  ~ fits (fld +:+ chr c) ->
  parse_add_char (mkReader st fs fld) c
  = inl (Error_ "field larger than field limit (131072)").
Proof.
  unfold fits, parse_add_char. rewrite length_append. simpl. intros H.
  destruct (N.leb_spec field_limit (N.of_nat (String.length fld))); [done|lia].
Qed.

Lemma fits_dec (s : string) : fits s \/ ~ fits s.
Proof. unfold fits. lia. Qed.

(** An unquoted field that outgrows the limit. *)
Lemma scan_plain_overflow data fld fs mid s :
  wants_quote false data = false ->
  fits fld ->
  ~ fits (fld +:+ data) ->
  scan_records (mkReader IN_FIELD fs fld) mid (data +:+ s)
  = ([], Some (Error_ "field larger than field limit (131072)")).
Proof.
  revert fld mid. induction data as [|c d IH]; intros fld mid Hplain Hfld Hover.
  - by rewrite append_nil_r in Hover.
  - rewrite wants_quote_cons in Hplain.
    apply orb_false_elim in Hplain as [Hc Hd].
    apply special_false in Hc as (Hdel & Hq & Hlf & Hnl).
    rewrite append_cons.
    destruct (fits_dec (fld +:+ chr c)) as [Hfit|Hnofit].
    + rewrite (scan_char _ (mkReader IN_FIELD fs (fld +:+ chr c))); [|done|].
      * apply IH; [done|done|]. by rewrite append_assoc.
      * unfold parse_process_char. simpl. rewrite Hnl, Hdel.
        by apply parse_add_char_fits.
    + cbn [scan_records]. unfold parse_process_char. simpl. rewrite Hnl, Hdel.
      by rewrite (parse_add_char_overflow _ _ _ _ Hnofit).
Qed.

(** Reading a text is reading its beginning, then the rest from where the
    reader stands. *)
Lemma scan_app (p s : string) (r : ReaderObj) (mid : bool) :
  scan_records r mid (p +:+ s)
  = match feed_text r mid p with
    | (recs, inl e) => (recs, Some e)
    | (recs, inr (r', mid')) =>
        let '(recs', stop) := scan_records r' mid' s in (recs ++ recs', stop)
    end.
Proof.
  revert r mid. induction p as [|c p IH]; intros r mid.
  - rewrite append_nil_l. simpl. by destruct (scan_records r mid s).
  - rewrite append_cons. cbn [scan_records feed_text].
    destruct (parse_process_char r (Some c)) as [e|r1]; [done|].
    destruct (c =? LF)%char; [|apply IH].
    destruct (parse_process_char r1 None) as [e|r2]; [done|].
    destruct (state r2); try apply IH.
    rewrite IH.
    destruct (feed_text parse_reset false p) as [recs [e|[r3 mid3]]]; [done|].
    by destruct (scan_records r3 mid3 s).
Qed.

Lemma reader_app (p s : string) recs r mid :
  feed_text parse_reset false p = (recs, inr (r, mid)) ->
  reader (p +:+ s)
  = let '(recs', stop) := scan_records r mid s in (recs ++ recs', stop).
Proof. intros Hp. by rewrite reader_scan, scan_app, Hp. Qed.

(** The reader as it stands part-way holds fields within the limit. *)
Lemma feed_text_fits (p : string) r mid recs r' mid' :
  feed_text r mid p = (recs, inr (r', mid')) -> reader_fits r -> reader_fits r'.
Proof.
  revert r mid recs. induction p as [|c p IH]; intros r mid recs.
  - simpl. by intros [= _ <- _].
  - cbn [feed_text].
    destruct (parse_process_char r (Some c)) as [e|r1] eqn:Hp1; [done|].
    intros H Hr. pose proof (parse_process_char_inv _ _ _ Hp1 Hr) as Hr1.
    destruct (c =? LF)%char; [|by apply (IH _ _ _ H)].
    destruct (parse_process_char r1 None) as [e|r2] eqn:Hp2; [done|].
    pose proof (parse_process_char_inv _ _ _ Hp2 Hr1) as Hr2.
    destruct (state r2); try by apply (IH _ _ _ H).
    destruct (feed_text parse_reset false p) as [recs1 after] eqn:Hrest.
    injection H as _ ->. by apply (IH _ _ _ Hrest parse_reset_fits).
Qed.

(** The outcome of a run on a text that the reader refuses. *)
Lemma refused_run input recs e :
  reader input = (recs, Some e) ->
  (forall calls csv report calls',
      deidentify_data analyze anonymize title input calls
      <> Returned (csv, report) calls') /\
  (recs = [] ->
   forall calls,
     deidentify_data analyze anonymize title input calls
     = Raised (CsvError e) calls).
Proof.
  intros Hr. split.
  - intros calls csv report calls' (header & rows & Hr' & _)%run_returned.
    rewrite Hr in Hr'. by injection Hr'.
  - intros -> calls. unfold deidentify_data, bind, deidentify_grid.
    by rewrite Hr.
Qed.

(** X7: wherever it comes in the input, first field or later one, first
    record or later one, a carriage return outside a quoted field that is
    followed by a character other than a line feed or a carriage return,
    as at the line ends of a text with CR line endings, makes the reader
    raise [csv.Error] after the records read so far; no run on such an
    input returns, and the run raises at once when no record was
    complete. *)
Theorem X7_lone_CR_is_refused p recs r mid c rest :
  feed_text parse_reset false p = (recs, inr (r, mid)) ->
  state r <> IN_QUOTED_FIELD ->
  is_newline c = false ->
  let input := p +:+ chr CR +:+ String c rest in
  exists e,
    reader input = (recs, Some e) /\
    (forall calls csv report calls',
        deidentify_data analyze anonymize title input calls
        <> Returned (csv, report) calls') /\
    (recs = [] ->
     forall calls,
       deidentify_data analyze anonymize title input calls
       = Raised (CsvError e) calls).
Proof.
  intros Hp Hst Hc input. exists (Error_ new_line_seen).
  assert (reader input = (recs, Some (Error_ new_line_seen))) as Hr.
  { subst input. rewrite (reader_app _ _ _ _ _ Hp).
    unfold chr. rewrite append_cons, append_nil_l.
    destruct r as [st fs fld]. simpl in Hst.
    destruct st; try done; cbn [scan_records]; unfold parse_process_char;
      simpl; rewrite Hc; by rewrite app_nil_r. }
  split; [done|]. by apply refused_run.
Qed.

(** A quoted field that outgrows the limit. *)
Lemma scan_quoted_overflow data fld fs mid s :
  quote_free data = true ->
  fits fld ->
  ~ fits (fld +:+ data) ->
  scan_records (mkReader IN_QUOTED_FIELD fs fld) mid (data +:+ s)
  = ([], Some (Error_ "field larger than field limit (131072)")).
Proof.
  revert fld mid. induction data as [|c d IH]; intros fld mid Hq Hfld Hover.
  - by rewrite append_nil_r in Hover.
  - simpl in Hq. apply andb_prop in Hq as [Hc%negb_true_iff Hd].
    rewrite append_cons. cbn [scan_records]. unfold parse_process_char.
    cbn [state]. rewrite Hc.
    destruct (fits_dec (fld +:+ chr c)) as [Hfit|Hnofit].
    + rewrite (parse_add_char_fits _ _ _ _ Hfit).
      destruct (c =? LF)%char; simpl; apply IH; try done;
        by rewrite append_assoc.
    + by rewrite (parse_add_char_overflow _ _ _ _ Hnofit).
Qed.

(** An unquoted field that outgrows the limit, from its start or from
    inside it. *)
Lemma scan_unquoted_overflow st data fld fs mid s :
  st = START_RECORD \/ st = START_FIELD \/ st = IN_FIELD ->
  wants_quote false data = false ->
  fits fld ->
  ~ fits (fld +:+ data) ->
  scan_records (mkReader st fs fld) mid (data +:+ s)
  = ([], Some (Error_ "field larger than field limit (131072)")).
Proof.
  intros Hst Hplain Hfld Hover.
  destruct Hst as [-> | [-> | ->]]; [| |by apply scan_plain_overflow].
  all: destruct data as [|c d]; [by rewrite append_nil_r in Hover|];
    pose proof Hplain as Hplain'; rewrite wants_quote_cons in Hplain';
    apply orb_false_elim in Hplain' as [Hc Hd];
    apply special_false in Hc as (Hdel & Hq & Hlf & Hnl);
    rewrite append_cons;
    destruct (fits_dec (fld +:+ chr c)) as [Hfit|Hnofit].
  - rewrite (scan_char _ (mkReader IN_FIELD fs (fld +:+ chr c))); [|done|].
    + apply scan_plain_overflow; [done|done|]. by rewrite append_assoc.
    + unfold parse_process_char, start_field. simpl. rewrite Hnl, Hq, Hdel.
      unfold set_state. simpl.
      by rewrite (parse_add_char_fits START_FIELD fs fld c Hfit).
  - cbn [scan_records]. unfold parse_process_char, start_field. simpl.
    rewrite Hnl, Hq, Hdel. unfold set_state. simpl.
    by rewrite (parse_add_char_overflow START_FIELD fs fld c Hnofit).
  - rewrite (scan_char _ (mkReader IN_FIELD fs (fld +:+ chr c))); [|done|].
    + apply scan_plain_overflow; [done|done|]. by rewrite append_assoc.
    + unfold parse_process_char, start_field. simpl. rewrite Hnl, Hq, Hdel.
      by rewrite (parse_add_char_fits START_FIELD fs fld c Hfit).
  - cbn [scan_records]. unfold parse_process_char, start_field. simpl.
    rewrite Hnl, Hq, Hdel.
    by rewrite (parse_add_char_overflow START_FIELD fs fld c Hnofit).
Qed.

(** A character that would be added to a field that is full. *)
Lemma parse_process_char_overflow r c :
  adds_char (state r) c = true ->
  ~ fits (field r +:+ chr c) ->
  parse_process_char r (Some c)
  = inl (Error_ "field larger than field limit (131072)").
Proof.
  destruct r as [st fs fld]. cbn [state field]. intros Hadds Hover.
  pose proof (fun st' => parse_add_char_overflow st' fs fld c Hover) as Hadd.
  unfold parse_process_char, start_field, set_state. cbn [state fields field].
  destruct st; simpl in Hadds.
  - apply andb_prop in Hadds as [[Hnl Hq]%andb_prop Hdel].
    apply negb_true_iff in Hnl, Hq, Hdel. by rewrite Hnl, Hq, Hdel, Hadd.
  - apply andb_prop in Hadds as [[Hnl Hq]%andb_prop Hdel].
    apply negb_true_iff in Hnl, Hq, Hdel. by rewrite Hnl, Hq, Hdel, Hadd.
  - apply andb_prop in Hadds as [Hnl Hdel].
    apply negb_true_iff in Hnl, Hdel. by rewrite Hnl, Hdel, Hadd.
  - apply negb_true_iff in Hadds. by rewrite Hadds, Hadd.
  - destruct (c =? quotechar)%char; [by rewrite Hadd|]. simpl in Hadds.
    apply andb_prop in Hadds as [Hdel Hnl].
    apply negb_true_iff in Hnl, Hdel. by rewrite Hdel, Hnl, Hadd.
  - done.
Qed.

(** X8: wherever it comes in the input, in whatever field of whatever
    record, quoted or not, a character that the reader would add to a
    field of 131072 characters, the field size limit, makes the reader
    raise [csv.Error] after the records read so far; so does a field that
    outgrows the limit by a run of characters: any but delimiter, quote
    and line ends for an unquoted field, any but the quote for a quoted
    one.  No run on such an input returns, and the run raises at once
    when no record was complete. *)
Theorem X8_oversized_field_is_refused p recs r mid :
  feed_text parse_reset false p = (recs, inr (r, mid)) ->
  let error := Error_ "field larger than field limit (131072)" in
  (forall c rest,
      adds_char (state r) c = true ->
      ~ fits (field r +:+ chr c) ->
      let input := p +:+ String c rest in
      reader input = (recs, Some error) /\
      (forall calls csv report calls',
          deidentify_data analyze anonymize title input calls
          <> Returned (csv, report) calls') /\
      (recs = [] ->
       forall calls,
         deidentify_data analyze anonymize title input calls
         = Raised (CsvError error) calls)) /\
  (forall data rest,
      ((state r = START_RECORD \/ state r = START_FIELD \/ state r = IN_FIELD) /\
       wants_quote false data = false) \/
      (state r = IN_QUOTED_FIELD /\ quote_free data = true) ->
      ~ fits (field r +:+ data) ->
      let input := p +:+ data +:+ rest in
      reader input = (recs, Some error) /\
      (forall calls csv report calls',
          deidentify_data analyze anonymize title input calls
          <> Returned (csv, report) calls') /\
      (recs = [] ->
       forall calls,
         deidentify_data analyze anonymize title input calls
         = Raised (CsvError error) calls)).
Proof.
  intros Hp error. split.
  - intros c rest Hadds Hover input.
    assert (reader input = (recs, Some error)) as Hr.
    { subst input error. rewrite (reader_app _ _ _ _ _ Hp).
      cbn [scan_records].
      rewrite (parse_process_char_overflow r c Hadds Hover).
      by rewrite app_nil_r. }
    split; [done|]. by apply refused_run.
  - intros data rest Hcase Hover input.
    assert (reader input = (recs, Some error)) as Hr.
    { subst input error. rewrite (reader_app _ _ _ _ _ Hp).
      destruct (feed_text_fits _ _ _ _ _ _ Hp parse_reset_fits) as [_ Hfld].
      destruct r as [st fs fld]. simpl in *.
      destruct Hcase as [[Hst Hplain]|[-> Hq]].
      - rewrite (scan_unquoted_overflow st data fld fs mid rest
                                        Hst Hplain Hfld Hover).
        by rewrite app_nil_r.
      - rewrite (scan_quoted_overflow data fld fs mid rest Hq Hfld Hover).
        by rewrite app_nil_r. }
    split; [done|]. by apply refused_run.
Qed.

(** X9: the line endings of the input do not matter: two inputs with the
    same records, each ended by a line feed or by CR LF, make the same
    run: the same calls and the same outcome. *)
Theorem X9_line_endings_do_not_matter l l' calls :
  Forall (fun rt => Forall fits (fst rt) /\ line_ending (snd rt)) l ->
  Forall (fun rt => Forall fits (fst rt) /\ line_ending (snd rt)) l' ->
  map fst l = map fst l' ->
  deidentify_data analyze anonymize title (lines_text l) calls
  = deidentify_data analyze anonymize title (lines_text l') calls.
Proof.
  intros Hl Hl' Hsame.
  rewrite (deidentify_data_reader _ _ _ (lines_text l) (lines_text l')); [done|].
  by rewrite (reader_lines_text l Hl), (reader_lines_text l' Hl'), Hsame.
Qed.

(** A quoted field left open at the end of the text. *)
Lemma scan_open_quote (data fld : string) (fs : list string) (mid : bool) :
  quote_free data = true ->
  fits (fld +:+ data) ->
  scan_records (mkReader IN_QUOTED_FIELD fs fld) mid data
  = ([fs ++ [fld +:+ data]], None).
Proof.
  revert fld mid. induction data as [|c d IH]; intros fld mid Hq Hfit.
  - rewrite append_nil_r. destruct mid; simpl; by rewrite orb_true_r.
  - simpl in Hq. apply andb_prop in Hq as [Hc%negb_true_iff Hd].
    pose proof (fits_app_l _ _ (fits_snoc _ _ _ Hfit)) as Hfit1.
    replace (fld +:+ String c d) with ((fld +:+ chr c) +:+ d)
      by (by rewrite append_assoc).
    assert (parse_process_char (mkReader IN_QUOTED_FIELD fs fld) (Some c)
            = inr (mkReader IN_QUOTED_FIELD fs (fld +:+ chr c))) as Hp.
    { unfold parse_process_char. simpl. rewrite Hc.
      by apply parse_add_char_fits. }
    cbn [scan_records]. rewrite Hp.
    destruct (c =? LF)%char; simpl; apply IH; try done; by apply fits_snoc.
Qed.

(** X14: wherever a quote is opened, first field or later one, when the
    text ends before the quote is closed and the field stays within the
    field size limit, no error is raised: the reader takes all that
    follows the quote, line ends and delimiters included, for one cell,
    which ends the last record after the fields already read in it, and
    the iteration then stops as at the end of a well-formed input. *)
Theorem X14_open_quote_swallows_the_rest p recs r mid data :
  feed_text parse_reset false p = (recs, inr (r, mid)) ->
  state r = IN_QUOTED_FIELD ->
  quote_free data = true ->
  fits (field r +:+ data) ->
  reader (p +:+ data) = (recs ++ [fields r ++ [field r +:+ data]], None).
Proof.
  intros Hp Hst Hq Hfit. rewrite (reader_app _ _ _ _ _ Hp).
  destruct r as [st fs fld]. simpl in *. subst st.
  by rewrite (scan_open_quote data fld fs mid Hq Hfit).
Qed.

End ReaderEdges.

(** ** The upload route *)

Section UploadFacts.

Variable analyze : string -> string -> PyExc + list RecognizerResult.
Variable anonymize :
  string -> list RecognizerResult -> Operators -> PyExc + EngineResult.
Variable title : string -> string.
Variable decode : string -> string + string.

(** X11: the view always answers: it never falls off its end and lets no
    exception of the decoding or of the pipeline out; the status is 200,
    400 or 500; a 400 is given without any call to an engine; and an
    answer other than 200 holds an error message and nothing else, so no
    part of a de-identified text or of a report. *)
Theorem X11_process_file_answers files calls :
  exists resp calls',
    process_file analyze anonymize title decode files calls = (Some resp, calls') /\
    (status resp = 200 \/ status resp = 400 \/ status resp = 500) /\
    (status resp = 400 -> calls' = calls) /\
    (status resp <> 200 -> exists msg, json resp = [("error", msg)]).
Proof.
  unfold process_file.
  destruct (getitem files "file") as [file|].
  - destruct (String.eqb (filename file) EmptyString); cbn [negb].
    + eexists _, _. split; [done|]. simpl. split_and!; eauto.
    + destruct (decode (content file)) as [detail|text].
      * eexists _, _. split; [done|]. simpl. split_and!; eauto.
      * destruct (deidentify_data analyze anonymize title text calls)
          as [[csv report] calls'|e calls'];
          eexists _, _; (split; [done|]); simpl; split_and!; eauto; done.
  - eexists _, _. split; [done|]. simpl. split_and!; eauto.
Qed.

(** X12: what decides the status.  The answer is 200 exactly when the
    request holds a file under the field file, with a name that is not
    empty, whose bytes decode and on whose text the pipeline returns, and
    it then holds the output text and the report of that run; it is 400
    exactly when there is no such field or the name is empty; it is 500
    exactly when the file has a name and the decoding fails or the
    pipeline raises, and the message then ends with the text of the
    exception. *)
Theorem X12_process_file_status files calls resp calls' :
  process_file analyze anonymize title decode files calls = (Some resp, calls') ->
  (status resp = 200 <->
   exists file text csv report,
     getitem files "file" = Some file /\
     filename file <> EmptyString /\
     decode (content file) = inr text /\
     deidentify_data analyze anonymize title text calls = Returned (csv, report) calls' /\
     json resp = [("deidentified_csv", csv); ("report", report)]) /\
  (status resp = 400 <->
   getitem files "file" = None \/
   exists file, getitem files "file" = Some file /\ filename file = EmptyString) /\
  (status resp = 500 <->
   exists file detail,
     getitem files "file" = Some file /\
     filename file <> EmptyString /\
     json resp = [("error", "An error occurred during processing: " +:+ detail)] /\
     (decode (content file) = inl detail \/
      exists text e,
        decode (content file) = inr text /\
        deidentify_data analyze anonymize title text calls = Raised e calls' /\
        detail = str_of_exc e)).
Proof.
  unfold process_file.
  destruct (getitem files "file") as [file|] eqn:Hfile.
  - destruct (String.eqb_spec (filename file) EmptyString) as [Hname|Hname];
      cbn [negb].
    + intros [= <- <-]. simpl. split_and!.
      * split; [done|].
        by intros (f & text & csv & report & [= <-] & Hne & _).
      * split; [|done]. intros _. right. by exists file.
      * split; [done|]. by intros (f & detail & [= <-] & Hne & _).
    + destruct (decode (content file)) as [detail|text] eqn:Hdec.
      * intros [= <- <-]. simpl. split_and!.
        -- split; [done|].
           intros (f & t & csv & report & [= <-] & _ & Hdec' & _).
           by rewrite Hdec in Hdec'.
        -- split; [done|]. by intros [[=]|(f & [= <-] & Hempty)].
        -- split; [|done]. intros _. exists file, detail. split_and!; auto.
      * destruct (deidentify_data analyze anonymize title text calls)
          as [[csv report] calls1|e calls1] eqn:Hrun.
        -- intros [= <- <-]. simpl. split_and!.
           ++ split; [|done]. intros _. by exists file, text, csv, report.
           ++ split; [done|]. by intros [[=]|(f & [= <-] & Hempty)].
           ++ split; [done|]. by intros (f & detail & _ & _ & [=] & _).
        -- intros [= <- <-]. simpl. split_and!.
           ++ split; [done|].
              intros (f & t & csv & report & [= <-] & _ & Hdec' & Hrun' & _).
              rewrite Hdec in Hdec'. injection Hdec' as <-.
              by rewrite Hrun in Hrun'.
           ++ split; [done|]. by intros [[=]|(f & [= <-] & Hempty)].
           ++ split; [|done]. intros _. exists file, (str_of_exc e).
              split_and!; [done..|]. right. by exists text, e.
  - intros [= <- <-]. simpl. split_and!.
    + split; [done|]. by intros (f & _ & _ & _ & [=] & _).
    + split; [|done]. intros _. by left.
    + split; [done|]. by intros (f & detail & [=] & _).
Qed.

(** X13: a file with a name whose bytes decode to the empty text gets
    the answer 500 with the message An error occurred during processing
    and nothing after the colon, since the [StopIteration] that the
    pipeline raises has no message; no engine is called. *)
Theorem X13_empty_upload files file calls :
  getitem files "file" = Some file ->
  filename file <> EmptyString ->
  decode (content file) = inr EmptyString ->
  process_file analyze anonymize title decode files calls
  = (Some (mkResponse [("error", "An error occurred during processing: ")] 500),
     calls).
Proof.
  intros Hfile Hname Hdec. unfold process_file. rewrite Hfile.
  destruct (String.eqb_spec (filename file) EmptyString) as [|_]; [done|].
  cbn [negb]. by rewrite Hdec.
Qed.

End UploadFacts.

(** ** The further properties at work *)

Lemma X1_witness :
  exists header rows,
    PyCsv.reader Demo.sample = (header :: rows, None) /\
    analyzed [Analyze "Alice" "en"; Analyze "alice@example.com" "en";
              Anonymize "alice@example.com"
                        [mkResult "EMAIL_ADDRESS" 0 17] operators]
    = List.filter (fun cell => negb (PyStr.all_space cell)) (List.concat rows).
Proof.
  destruct (X1_scanned_in_order Demo.analyze Demo.anonymize Demo.title Demo.sample
              ("name,email" +:+ crlf +:+ "Alice,XXXXXX" +:+ crlf)
              ("Summary Report" +:+ nl +:+ "--------------" +:+ nl +:+
               "Total Email Address found: 1" +:+ nl)
              [Analyze "Alice" "en"; Analyze "alice@example.com" "en";
               Anonymize "alice@example.com"
                         [mkResult "EMAIL_ADDRESS" 0 17] operators])
    as (header & rows & Hr & Hanalyzed & _).
  - vm_compute. reflexivity.
  - exists header, rows. split; assumption.
Defined.

Lemma X2_witness :
  exists header rows total,
    PyCsv.reader Demo.sample = (header :: rows, None) /\
    PyDict.total total
    = Z.of_nat (length (flat_map (detected Demo.analyze) (List.concat rows))).
Proof.
  destruct (X2_counts_are_detections Demo.analyze Demo.anonymize Demo.title Demo.sample
              ("name,email" +:+ crlf +:+ "Alice,XXXXXX" +:+ crlf)
              ("Summary Report" +:+ nl +:+ "--------------" +:+ nl +:+
               "Total Email Address found: 1" +:+ nl)
              [Analyze "Alice" "en"; Analyze "alice@example.com" "en";
               Anonymize "alice@example.com"
                         [mkResult "EMAIL_ADDRESS" 0 17] operators])
    as (header & rows & total & Hr & _ & _ & Htotal).
  - vm_compute. reflexivity.
  - exists header, rows, total. split; assumption.
Defined.

Lemma X3_witness :
  exists header rows total,
    PyCsv.reader Demo.sample = (header :: rows, None) /\
    PyDict.keys total
    = first_seen (map entity_type
                      (flat_map (detected Demo.analyze) (List.concat rows))).
Proof.
  destruct (X3_report_order Demo.analyze Demo.anonymize Demo.title Demo.sample
              ("name,email" +:+ crlf +:+ "Alice,XXXXXX" +:+ crlf)
              ("Summary Report" +:+ nl +:+ "--------------" +:+ nl +:+
               "Total Email Address found: 1" +:+ nl)
              [Analyze "Alice" "en"; Analyze "alice@example.com" "en";
               Anonymize "alice@example.com"
                         [mkResult "EMAIL_ADDRESS" 0 17] operators])
    as (header & rows & total & Hr & _ & Hkeys).
  - vm_compute. reflexivity.
  - exists header, rows, total. split; assumption.
Defined.

Lemma X4_witness :
  exists header lines,
    PyCsv.reader ("name,email" +:+ crlf +:+ "Alice,XXXXXX" +:+ crlf)
    = (header :: lines, None).
Proof.
  destruct (X4_output_reparses Demo.analyze Demo.anonymize Demo.title Demo.sample
              ("name,email" +:+ crlf +:+ "Alice,XXXXXX" +:+ crlf)
              ("Summary Report" +:+ nl +:+ "--------------" +:+ nl +:+
               "Total Email Address found: 1" +:+ nl)
              [Analyze "Alice" "en"; Analyze "alice@example.com" "en";
               Anonymize "alice@example.com"
                         [mkResult "EMAIL_ADDRESS" 0 17] operators])
    as (header & rows & lines & _ & Hread & _).
  - vm_compute. reflexivity.
  - intros row cell results r Hrow Hcell Ha Hm. vm_compute in Hrow.
    destruct Hrow as [<-|[]].
    destruct Hcell as [<-|[<-|[]]]; vm_compute in Ha; injection Ha as <-;
      vm_compute in Hm; injection Hm as <-; by vm_compute.
  - exists header, lines. assumption.
Defined.

(** A header, a data row, then a record with a carriage return in the
    middle of a line. *)
Lemma X5_witness :
  deidentify_data Demo.analyze Demo.anonymize Demo.title
                  ("h" +:+ nl +:+ "x" +:+ nl +:+ "a" +:+ chr CR +:+ "b") []
  = Raised (CsvError (PyCsv.Error_ PyCsv.new_line_seen)) [Analyze "x" "en"].
Proof.
  destruct (X5_malformed_record_fails Demo.analyze Demo.anonymize Demo.title
              ("h" +:+ nl +:+ "x" +:+ nl +:+ "a" +:+ chr CR +:+ "b")
              (PyCsv.Error_ PyCsv.new_line_seen)) as (_ & _ & Hlater).
  apply (Hlater ["h"] [["x"]] []).
  - vm_compute. reflexivity.
  - repeat constructor.
Defined.

Lemma X6_witness :
  deidentify_data Demo.analyze_fails Demo.anonymize Demo.title Demo.sample []
  = Raised (EngineError "ValueError" "no recognizer") [Analyze "Alice" "en"].
Proof.
  apply (X6_fail_fast Demo.analyze_fails Demo.anonymize Demo.title Demo.sample
           ["name"; "email"] [] [] "Alice" ["alice@example.com"] [] None).
  - vm_compute. reflexivity.
  - constructor.
  - constructor.
  - reflexivity.
Defined.

(** A carriage return after the second field of the first record. *)
Lemma X7_witness :
  exists e,
    PyCsv.reader ("a,b" +:+ chr CR +:+ "c,d") = ([], Some e).
Proof.
  destruct (X7_lone_CR_is_refused Demo.analyze Demo.anonymize Demo.title
              "a,b" [] (PyCsv.mkReader PyCsv.IN_FIELD ["a"] "b") true
              "c"%char ",d") as (e & Hr & _).
  - vm_compute. reflexivity.
  - discriminate.
  - reflexivity.
  - exists e. exact Hr.
Defined.

(** A second field of 262144 letters. *)
Lemma X8_witness :
  PyCsv.reader ("a," +:+ DemoUpload.long_field +:+ EmptyString)
  = ([], Some (PyCsv.Error_ "field larger than field limit (131072)")).
Proof.
  destruct (X8_oversized_field_is_refused Demo.analyze Demo.anonymize Demo.title
              "a," [] (PyCsv.mkReader PyCsv.START_FIELD ["a"] EmptyString) true)
    as (_ & Hrun).
  - vm_compute. reflexivity.
  - destruct (Hrun DemoUpload.long_field EmptyString) as (Hr & _).
    + left. split; [right; by left|]. vm_compute. reflexivity.
    + unfold PyCsv.fits. vm_compute. intros H. apply H. reflexivity.
    + exact Hr.
Defined.

Lemma X9_witness :
  deidentify_data Demo.analyze Demo.anonymize Demo.title ("a,b" +:+ nl) []
  = deidentify_data Demo.analyze Demo.anonymize Demo.title ("a,b" +:+ crlf) [].
Proof.
  apply (X9_line_endings_do_not_matter Demo.analyze Demo.anonymize Demo.title
           [(["a"; "b"], nl)] [(["a"; "b"], crlf)] []).
  - constructor; [split; [repeat constructor; by vm_compute | by left]
                 | constructor].
  - constructor; [split; [repeat constructor; by vm_compute | by right]
                 | constructor].
  - reflexivity.
Defined.

Lemma X12_witness :
  exists text, DemoUpload.decode Demo.sample = inr text.
Proof.
  destruct (X12_process_file_status Demo.analyze Demo.anonymize Demo.title DemoUpload.decode
              DemoUpload.upload []
              (mkResponse
                 [("deidentified_csv",
                   "name,email" +:+ crlf +:+ "Alice,XXXXXX" +:+ crlf);
                  ("report",
                   "Summary Report" +:+ nl +:+ "--------------" +:+ nl +:+
                   "Total Email Address found: 1" +:+ nl)] 200)
              [Analyze "Alice" "en"; Analyze "alice@example.com" "en";
               Anonymize "alice@example.com"
                         [mkResult "EMAIL_ADDRESS" 0 17] operators])
    as ([Hok _] & _).
  - vm_compute. reflexivity.
  - destruct (Hok eq_refl) as (file & text & csv & report & Hfile & _ & Hdec & _).
    injection Hfile as <-. by exists text.
Defined.

Lemma X13_witness :
  process_file Demo.analyze Demo.anonymize Demo.title DemoUpload.decode
               [("file", mkFile "empty.csv" EmptyString)] []
  = (Some (mkResponse [("error", "An error occurred during processing: ")] 500),
     []).
Proof.
  apply (X13_empty_upload Demo.analyze Demo.anonymize Demo.title DemoUpload.decode
           _ (mkFile "empty.csv" EmptyString)); [reflexivity | done | reflexivity].
Defined.

(** A quote opened in the second field of the second record. *)
Lemma X14_witness :
  PyCsv.reader
    (("h" +:+ nl +:+ "x," +:+ chr DQUOTE) +:+ ("a,b" +:+ nl +:+ "c"))
  = ([["h"]] ++ [["x"] ++ [EmptyString +:+ ("a,b" +:+ nl +:+ "c")]], None).
Proof.
  apply (X14_open_quote_swallows_the_rest
           ("h" +:+ nl +:+ "x," +:+ chr DQUOTE) [["h"]]
           (PyCsv.mkReader PyCsv.IN_QUOTED_FIELD ["x"] EmptyString) true
           ("a,b" +:+ nl +:+ "c")).
  - vm_compute. reflexivity.
  - reflexivity.
  - reflexivity.
  - by vm_compute.
Defined.
